(** * tv_grab_fr_sfr: the SFR EPG to XMLTV grabber, embedded and verified

    A shallow embedding of [tv_grab_fr_sfr.py].  Python strings are lists of
    Unicode code points, lxml elements are a rose tree, dictionaries are
    sequences of pairs in insertion order, the [set] of channel identifiers
    kept by the assembler is a [gset].  Exceptions, the logger and the files
    written are threaded through a small monad: a computation takes the
    events so far and returns either a value or the exception raised,
    together with the events extended.  The clock, the time zones, the date
    parser of the library, the server of the vendor and the file system are
    the fields of a record the functions take. *)

From Stdlib Require Import ZArith NArith List String Ascii Bool Lia.
From stdpp Require Import base option list gmap.

Local Open Scope Z_scope.

(* ===================================================================== *)
(** ** Python strings *)
(* ===================================================================== *)

(** A Python [str] is a sequence of code points. *)
Abbreviation pystr := (list N).

(** A literal of the source, written with ASCII characters only. *)
Fixpoint str (s : string) : pystr :=
  match s with
  | EmptyString => []
  | String a s' => N_of_ascii a :: str s'
  end.

(** [str.isspace] on one code point: the characters [str.strip] removes and
    the class [\s] of [re] matches on [str] patterns. *)
Definition isspace (c : N) : bool :=
  ((9 <=? c) && (c <=? 13) || (28 <=? c) && (c <=? 32)
   || (c =? 133) || (c =? 160) || (c =? 5760)
   || (8192 <=? c) && (c <=? 8202)
   || (c =? 8232) || (c =? 8233) || (c =? 8239) || (c =? 8287)
   || (c =? 12288))%N.

(** [s.lstrip()] *)
Fixpoint lstrip (s : pystr) : pystr :=
  match s with
  | [] => []
  | c :: s' => if isspace c then lstrip s' else s
  end.

(** [s.rstrip()] *)
Definition rstrip (s : pystr) : pystr := rev (lstrip (rev s)).

(** [s.strip()] *)
Definition strip (s : pystr) : pystr := rstrip (lstrip s).

(** [s.startswith(p)] *)
Fixpoint startswith (p s : pystr) : bool :=
  match p, s with
  | [], _ => true
  | _ :: _, [] => false
  | a :: p', b :: s' => (a =? b)%N && startswith p' s'
  end.

(** [s.replace(old, new)] for a non-empty [old]: occurrences are replaced
    from left to right and do not overlap.  [skip] counts the characters of
    an occurrence just replaced that are still to be dropped. *)
Fixpoint replace_from (old new : pystr) (skip : nat) (s : pystr) : pystr :=
  match s with
  | [] => []
  | c :: s' =>
      match skip with
      | S k => replace_from old new k s'
      | O => if startswith old s
             then new ++ replace_from old new (Nat.pred (length old)) s'
             else c :: replace_from old new O s'
      end
  end.

Definition replace (old new s : pystr) : pystr := replace_from old new O s.

(** [sep.join(parts)] *)
Fixpoint join (sep : pystr) (parts : list pystr) : pystr :=
  match parts with
  | [] => []
  | [x] => x
  | x :: parts' => x ++ sep ++ join sep parts'
  end.

(** [x in s] for a character. *)
Definition contains (c : N) (s : pystr) : bool := existsb (N.eqb c) s.

(** Equality test of two strings, [a == b]. *)
Definition str_eqb (a b : pystr) : bool := bool_decide (a = b).

(* ===================================================================== *)
(** ** Identifier mapping *)
(* ===================================================================== *)

(** [SFRXMLTVGrabber._sfr_to_xmltv_id] *)
Definition _sfr_to_xmltv_id (sfr_id : pystr) : pystr :=
  let xmltv_id := replace (str "+") (str "PLUS") (replace (str "_") (str "-") sfr_id) in
  xmltv_id ++ str ".tv.sfr.fr".

(* ===================================================================== *)
(** ** lxml elements *)
(* ===================================================================== *)

(** An element: tag, attributes in insertion order, text ([None] when the
    element has no text) and children. *)
Inductive Element : Type :=
| Elem (tag : pystr) (attrib : list (pystr * pystr)) (text : option pystr)
       (children : list Element).

Definition tag (e : Element) : pystr := let 'Elem t _ _ _ := e in t.
Definition attrib (e : Element) : list (pystr * pystr) := let 'Elem _ a _ _ := e in a.
Definition text (e : Element) : option pystr := let 'Elem _ _ x _ := e in x.
Definition children (e : Element) : list Element := let 'Elem _ _ _ c := e in c.

(** [d.get(key)] on a sequence of pairs with distinct keys. *)
Fixpoint dict_get {V} (key : pystr) (d : list (pystr * V)) : option V :=
  match d with
  | [] => None
  | (k, v) :: d' => if str_eqb k key then Some v else dict_get key d'
  end.

(** [d[key] = v]: replaces the value in place, or appends. *)
Fixpoint dict_set {V} (key : pystr) (v : V) (d : list (pystr * V)) : list (pystr * V) :=
  match d with
  | [] => [(key, v)]
  | (k, w) :: d' => if str_eqb k key then (k, v) :: d' else (k, w) :: dict_set key v d'
  end.

(** [e.get(key)] *)
Definition get (e : Element) (key : pystr) : option pystr := dict_get key (attrib e).

(** [e.get(key, default)] *)
Definition get_default (e : Element) (key default : pystr) : pystr :=
  match get e key with Some v => v | None => default end.

(** [e.find(t)]: the first child with tag [t]. *)
Definition find (e : Element) (t : pystr) : option Element :=
  List.find (fun c => str_eqb (tag c) t) (children e).

(** [e.findall(t)]: the children with tag [t], in document order. *)
Definition findall (e : Element) (t : pystr) : list Element :=
  List.filter (fun c => str_eqb (tag c) t) (children e).

(** [e.findtext(t)]: the text of the first child with tag [t], the empty
    string when that child has no text, [None] when there is no such child. *)
Definition findtext (e : Element) (t : pystr) : option pystr :=
  match find e t with
  | Some c => Some (match text c with Some x => x | None => [] end)
  | None => None
  end.

(** [e.findtext(t, default)] *)
Definition findtext_default (e : Element) (t default : pystr) : pystr :=
  match findtext e t with Some x => x | None => default end.

(** [e.iter()]: the element and its descendants, in document order. *)
Fixpoint iter (e : Element) : list Element :=
  match e with
  | Elem _ _ _ cs =>
      e :: (fix iter_children (l : list Element) : list Element :=
              match l with
              | [] => []
              | c :: l' => iter c ++ iter_children l'
              end) cs
  end.

(** [e.iter(tag=t)] *)
Definition iter_tag (e : Element) (t : pystr) : list Element :=
  List.filter (fun c => str_eqb (tag c) t) (iter e).

(** [SubElement(parent, t, **attrs)] followed by the assignment of its
    text: the parent with the new child appended. *)
Definition SubElement (parent : Element) (t : pystr) (attrs : list (pystr * pystr))
    (x : option pystr) : Element :=
  let 'Elem pt pa px pc := parent in Elem pt pa px (pc ++ [Elem t attrs x []]).

(** [parent.append(c)] *)
Definition append (parent c : Element) : Element :=
  let 'Elem pt pa px pc := parent in Elem pt pa px (pc ++ [c]).

(** [parent.extend(cs)] *)
Definition extend (parent : Element) (cs : list Element) : Element :=
  let 'Elem pt pa px pc := parent in Elem pt pa px (pc ++ cs).

(** [e.set(key, v)] *)
Definition set_attr (e : Element) (key v : pystr) : Element :=
  let 'Elem t a x c := e in Elem t (dict_set key v a) x c.

(* ===================================================================== *)
(** ** Exceptions and the logger *)
(* ===================================================================== *)

(** The exceptions the script can raise.  [URLError] stands for every failure
    of [_get_programs]: network, gzip or XML parsing.  [OSError] stands for
    its subclasses too, [FileNotFoundError] and [PermissionError] among
    them.  [SystemExit] carries the status given to [sys.exit]. *)
Inductive exn : Type :=
| AttributeError
| TypeError
| ValueError
| KeyError (key : pystr)
| URLError
| EOFError
| OSError
| OverflowError
| SystemExit (status : Z).

Inductive loglevel : Type := WARNING | ERROR.

Inductive logarg : Type :=
| ArgStr (s : pystr)
| ArgInt (i : Z).

(** One call of [logger.warning] or [logger.error]: the format string and
    its arguments.  Calls of [logger.debug] and [logger.info] are not
    recorded. *)
Record logrec : Type := LogRec {
  log_level : loglevel;
  log_msg : pystr;
  log_args : list logarg
}.

Inductive result (A : Type) : Type :=
| Ok (a : A)
| Raise (e : exn).
Arguments Ok {A} a.
Arguments Raise {A} e.

(** What a file holds once written: text, or a serialised document. *)
Inductive content : Type :=
| Text (s : pystr)
| Xml (doc : Element).

(** What the process does that can be observed from outside. *)
Inductive event : Type :=
| Logged (r : logrec)
| Printed (s : pystr)
| Wrote (path : pystr) (c : content).

(** A computation: from the events so far to an outcome and the events
    extended. *)
Definition M (A : Type) : Type := list event -> result A * list event.

Definition ret {A} (a : A) : M A := fun l => (Ok a, l).

Definition bind {A B} (m : M A) (f : A -> M B) : M B :=
  fun l => match m l with
           | (Ok a, l') => f a l'
           | (Raise e, l') => (Raise e, l')
           end.

Definition raise {A} (e : exn) : M A := fun l => (Raise e, l).

Definition emit (ev : event) : M unit := fun l => (Ok tt, l ++ [ev]).

Definition log (r : logrec) : M unit := emit (Logged r).

(** Lifts a value that is [None] where Python raises [e]. *)
Definition or_raise {A} (e : exn) (o : option A) : M A :=
  match o with
  | Some a => ret a
  | None => raise e
  end.

Notation "'let*' x ':=' m 'in' k" := (bind m (fun x => k))
  (at level 10, x pattern, m at level 100, k at level 200).

(** A [for] loop that threads an accumulator and stops at the first
    exception. *)
Fixpoint for_each {A S} (body : S -> A -> M S) (xs : list A) (s : S) : M S :=
  match xs with
  | [] => ret s
  | x :: xs' => let* s' := body s x in for_each body xs' s'
  end.

(** Runs a computation from the start of the process. *)
Definition run {A} (m : M A) : result A * list event := m [].

(* ===================================================================== *)
(** ** Dates and times *)
(* ===================================================================== *)

(** A [datetime.date] is its proleptic Gregorian ordinal ([date.toordinal],
    day 1 is 0001-01-01); [d + timedelta(days=n)] is [d + n]. *)
Abbreviation date := Z.

Definition is_leap (y : Z) : bool :=
  (y mod 4 =? 0) && (negb (y mod 100 =? 0) || (y mod 400 =? 0)).

Definition days_in_month (y m : Z) : Z :=
  if m =? 2 then (if is_leap y then 29 else 28)
  else if (m =? 4) || (m =? 6) || (m =? 9) || (m =? 11) then 30 else 31.

Definition days_before_year (y : Z) : Z :=
  let p := y - 1 in p * 365 + p / 4 - p / 100 + p / 400.

Definition days_before_month (y m : Z) : Z :=
  fold_right Z.add 0 (map (days_in_month y) (map Z.of_nat (seq 1 (Z.to_nat (m - 1))))).

(** The ordinal of year [y], month [m], day [d]. *)
Definition ymd2ord (y m d : Z) : date :=
  days_before_year y + days_before_month y m + d.

(** The year a date falls in. *)
Definition year_of (n : date) : Z :=
  let n0 := n - 1 in
  let n400 := n0 / 146097 in
  let r400 := n0 mod 146097 in
  let n100 := r400 / 36524 in
  let r100 := r400 mod 36524 in
  let n4 := r100 / 1461 in
  let r4 := r100 mod 1461 in
  let n1 := r4 / 365 in
  let y := n400 * 400 + n100 * 100 + n4 * 4 + n1 + 1 in
  if (n1 =? 4) || (n100 =? 4) then y - 1 else y.

(** A [tzinfo]: the UTC offset, in seconds, it gives to a wall-clock date
    and second of the day. *)
Definition tzinfo : Type := date -> Z -> Z.

(** An aware [datetime.datetime], to the second. *)
Record datetime : Type := DateTime {
  dt_date : date;
  dt_second : Z;
  dt_tzinfo : tzinfo
}.

(** [datetime.time(h, m)] as the second of the day. *)
Definition time (h m : Z) : Z := h * 3600 + m * 60.

(** [datetime.datetime.combine(d, t, tzinfo=tz)] *)
Definition combine (d : date) (t : Z) (tz : tzinfo) : datetime := DateTime d t tz.

(** [dt.date()] *)
Definition date_of (dt : datetime) : date := dt_date dt.

(** The dates [datetime] has: from 0001-01-01 to 9999-12-31. *)
Definition MINORDINAL : date := 1.
Definition MAXORDINAL : date := 3652059.

Definition valid_date (d : date) : bool := (MINORDINAL <=? d) && (d <=? MAXORDINAL).

(** The numbers of days [datetime.timedelta(days=n)] accepts. *)
Definition valid_timedelta (n : Z) : bool := (-999999999 <=? n) && (n <=? 999999999).

(** The wall clock moved by [n] days, the [tzinfo] kept: what
    [dt + datetime.timedelta(days=n)] is when it does not raise. *)
Definition shift_days (dt : datetime) (n : Z) : datetime :=
  DateTime (dt_date dt + n) (dt_second dt) (dt_tzinfo dt).

(** [dt + datetime.timedelta(days=n)]: [OverflowError] when the number of
    days is too large for a [timedelta] or the date leaves the years 1 to
    9999. *)
Definition add_days (dt : datetime) (n : Z) : M datetime :=
  if valid_timedelta n && valid_date (dt_date dt + n)
  then ret (shift_days dt n)
  else raise OverflowError.

(** [d + datetime.timedelta(days=n)] on a [date], with the same bounds. *)
Definition date_add (d : date) (n : Z) : M date :=
  if valid_timedelta n && valid_date (d + n)
  then ret (d + n)
  else raise OverflowError.

(** [dt.utcoffset()] *)
Definition utcoffset (dt : datetime) : Z := dt_tzinfo dt (dt_date dt) (dt_second dt).

(** The instant of an aware datetime, in seconds of UTC since ordinal 0.
    Datetimes with different [tzinfo] objects compare by it. *)
Definition instant (dt : datetime) : Z :=
  dt_date dt * 86400 + dt_second dt - utcoffset dt.

Definition dt_lt (a b : datetime) : bool := instant a <? instant b.
Definition dt_gt (a b : datetime) : bool := instant b <? instant a.
Definition dt_ge (a b : datetime) : bool := instant b <=? instant a.

(** A [tzinfo] of fixed offset, as [datetime.timezone] and the result of
    pytz's [localize] have. *)
Definition fixed_offset (off : Z) : tzinfo := fun _ _ => off.

(* ===================================================================== *)
(** ** The world outside the script *)
(* ===================================================================== *)

(** What the script reads from its surroundings: the clock, the time zone
    of the machine, the zone database, the date parser of the standard
    library, the server of the vendor and the file system. *)
Record Env : Type := {
  (** [datetime.date.today()] *)
  today : date;
  (** [pytz.reference.LocalTimezone()], taken to answer at every date
      [datetime] has, as it does where [time_t] has 64 bits *)
  LocalTimezone : tzinfo;
  (** the UTC offset that [pytz.timezone('Europe/Paris').localize] gives
      to a naive wall-clock time *)
  paris_utcoffset : date -> Z -> Z;
  (** [datetime.datetime.strptime(s, '%Y%m%d%H%M%S %z')], [None] where it
      raises [ValueError] *)
  strptime : pystr -> option datetime;
  (** the document the vendor serves for a date, [None] when fetching,
      decompressing or parsing it fails *)
  urlopen : date -> option Element;
  (** the text of a regular file, [None] when the path is not one *)
  read_file : pystr -> option pystr;
  (** whether a file can be written at a path: its directory exists or one
      [os.mkdir] makes it, and the file opens for writing.  What is written
      is taken to fit the encoding of the file, as with UTF-8 *)
  can_write : pystr -> bool;
  (** the lines typed on the standard input *)
  stdin : list pystr
}.

(** What [_SFR_TIMEZONE.localize(naive)] returns when it returns. *)
Definition localize (env : Env) (d : date) (t : Z) : datetime :=
  DateTime d t (fixed_offset (paris_utcoffset env d t)).

(** Whether [pytz] can localize a time of the date [d]: to pick the offset
    it first adds a day to the naive datetime and takes a day from it, and
    either addition raises [OverflowError] out of the years 1 to 9999. *)
Definition localizable (d : date) : bool := valid_date (d - 1) && valid_date (d + 1).

(** [_SFR_TIMEZONE.localize(naive)] as it runs. *)
Definition pytz_localize (env : Env) (d : date) (t : Z) : M datetime :=
  if localizable d then ret (localize env d t) else raise OverflowError.

(* ===================================================================== *)
(** ** The grabber *)
(* ===================================================================== *)

Definition _API_URL : pystr := str "http://data.stb.neuf.fr/epg/data/xmltv".
Definition _SFR_START_TIME : Z := time 5 0.
Definition _MAX_DAYS : Z := 14.
Definition _PROGRAM_URL : pystr := str "http://tv.sfr.fr/prog".

(** U+00E9, the one character of the category table outside ASCII. *)
Definition e_acute : pystr := [233%N].

Definition _ETSI_PROGRAM_CATEGORIES : list (pystr * pystr) :=
  [ (str "Autre", str "");
    (str "Cin" ++ e_acute ++ str "ma", str "Movie / Drama");
    (str "Documentaire", str "Documentary");
    (str "Jeunesse", str "Children's / Youth programmes");
    (str "Magazine", str "Magazines / Reports / Documentary");
    (str "S" ++ e_acute ++ str "rie TV", str "Movie / Drama");
    (str "Spectacle", str "Performing arts");
    (str "Sport", str "Sports");
    (str "T" ++ e_acute ++ str "l" ++ e_acute ++ str "film", str "Movie / Drama") ].

(** A value of the channel catalogue. *)
Record channel_info : Type := ChannelInfo {
  sfr_id : pystr;
  display_name : pystr
}.

(** The attributes of an [SFRXMLTVGrabber] object; [_channels] is a [dict]
    in insertion order. *)
Record SFRXMLTVGrabber : Type := Grabber {
  _channels : list (pystr * channel_info);
  _generator : option pystr;
  _generator_url : option pystr
}.

(** [_get_programs] *)
Definition _get_programs (env : Env) (d : date) : M Element :=
  or_raise URLError (urlopen env d).

(** [_retrieve_available_channels] *)
Definition _retrieve_available_channels (env : Env) : M (list (pystr * channel_info)) :=
  let* program_xml := _get_programs env (today env) in
  ret (fold_left
         (fun channels channel =>
            match get channel (str "id"), findtext channel (str "display-name") with
            | Some sfr_id, Some display_name =>
                dict_set (_sfr_to_xmltv_id sfr_id) (ChannelInfo sfr_id display_name) channels
            | _, _ => channels
            end)
         (iter_tag program_xml (str "channel")) []).

(** [SFRXMLTVGrabber.__init__] *)
Definition __init__ (env : Env) (generator generator_url : option pystr) : M SFRXMLTVGrabber :=
  let* channels := _retrieve_available_channels env in
  ret (Grabber channels generator generator_url).

(** [get_available_channels] *)
Definition get_available_channels (self : SFRXMLTVGrabber) : list (pystr * channel_info) :=
  _channels self.

Definition no_etsi_equivalent (category : pystr) : logrec :=
  LogRec WARNING (str "SFR category %s has no defined ETSI equivalent") [ArgStr category].

(** [_etsi_category] *)
Definition _etsi_category (category : pystr) : M (option pystr) :=
  let etsi_category := dict_get category _ETSI_PROGRAM_CATEGORIES in
  let* _ := match etsi_category with
            | None => log (no_etsi_equivalent category)
            | Some _ => ret tt
            end in
  ret etsi_category.

(** [_parse_channel_xmltv] *)
Definition _parse_channel_xmltv (self : SFRXMLTVGrabber) (xmltv_id : pystr) : M Element :=
  let* info := or_raise (KeyError xmltv_id) (dict_get xmltv_id (_channels self)) in
  let channel_xml := Elem (str "channel") [(str "id", xmltv_id)] None [] in
  ret (SubElement channel_xml (str "display-name") [] (Some (display_name info))).

(** [s != ''] *)
Definition nonempty (s : pystr) : bool :=
  match s with [] => false | _ :: _ => true end.

(** ['{}/{}-{}'.format(_PROGRAM_URL, title, program_id)] *)
Definition program_url (title program_id : pystr) : pystr :=
  _PROGRAM_URL ++ str "/" ++ title ++ str "-" ++ program_id.

(** The categories block of [_parse_program_xmltv]. *)
Definition add_categories (sfr_xml program_xml : Element) : M Element :=
  let category := strip (findtext_default sfr_xml (str "category") []) in
  if nonempty category then
    let* etsi_category := _etsi_category category in
    let program_xml :=
      match etsi_category with
      | Some e => if nonempty e
                  then SubElement program_xml (str "category") [] (Some e)
                  else program_xml
      | None => program_xml
      end in
    let program_xml :=
      if nonempty category
      then SubElement program_xml (str "category") [(str "lang", str "fr")] (Some category)
      else program_xml in
    let meta_category := strip (findtext_default sfr_xml (str "metacategory") []) in
    let program_xml :=
      if nonempty meta_category && negb (str_eqb meta_category category)
      then SubElement program_xml (str "category") [(str "lang", str "fr")] (Some meta_category)
      else program_xml in
    ret program_xml
  else ret program_xml.

(** The star rating block of [_parse_program_xmltv]. *)
Definition add_star_rating (sfr_xml program_xml : Element) : Element :=
  match find sfr_xml (str "star-rating") with
  | Some star_rating_xml =>
      let star_rating := strip (findtext_default star_rating_xml (str "value") []) in
      if nonempty star_rating
      then append program_xml
             (Elem (str "star-rating") [(str "system", str "SFR")] None
                [Elem (str "value") [] (Some star_rating) []])
      else program_xml
  | None => program_xml
  end.

(** [_parse_program_xmltv].  [sfr_xml.get('channel')] being [None] makes
    [_sfr_to_xmltv_id] raise [AttributeError]; a [None] attribute value makes
    [Element] raise [TypeError]; [findtext('title')] being [None] makes
    [.strip()] raise [AttributeError]. *)
Definition _parse_program_xmltv (sfr_xml : Element) : M Element :=
  let* sfr_channel := or_raise AttributeError (get sfr_xml (str "channel")) in
  let* start := or_raise TypeError (get sfr_xml (str "start")) in
  let* stop := or_raise TypeError (get sfr_xml (str "stop")) in
  let program_xml :=
    Elem (str "programme")
      [(str "channel", _sfr_to_xmltv_id sfr_channel); (str "start", start); (str "stop", stop)]
      None [] in
  (* Title *)
  let* title_text := or_raise AttributeError (findtext sfr_xml (str "title")) in
  let title := strip title_text in
  let program_xml := SubElement program_xml (str "title") [] (Some title) in
  (* Sub-title *)
  let sub_title := strip (findtext_default sfr_xml (str "sub-title") []) in
  let program_xml :=
    if nonempty sub_title
    then SubElement program_xml (str "sub-title") [] (Some sub_title)
    else program_xml in
  (* Desc *)
  let desc := strip (findtext_default sfr_xml (str "desc") []) in
  let program_xml :=
    if nonempty desc
    then SubElement program_xml (str "desc") [(str "lang", str "fr")] (Some desc)
    else program_xml in
  (* Categories *)
  let* program_xml := add_categories sfr_xml program_xml in
  (* Program URL *)
  let program_id := strip (get_default sfr_xml (str "id") []) in
  let program_xml :=
    if nonempty program_id
    then SubElement program_xml (str "url") [] (Some (program_url title program_id))
    else program_xml in
  (* Star rating *)
  ret (add_star_rating sfr_xml program_xml).

(* ===================================================================== *)
(** ** Window resolver and document assembler *)
(* ===================================================================== *)

(** [range(n)] *)
Definition range (n : Z) : list Z := map Z.of_nat (seq 0 (Z.to_nat n)).

Definition too_many_days : logrec :=
  LogRec WARNING (str "Grabber can only fetch programs up to %i days in the future.")
    [ArgInt _MAX_DAYS].

(** Lines 200-203 of [_get_xmltv_data]: the value of [days] afterwards. *)
Definition clamp_days (days offset : Z) : M Z :=
  if days + offset >? _MAX_DAYS then
    let* _ := log too_many_days in
    ret (Z.min (_MAX_DAYS - offset) _MAX_DAYS)
  else ret days.

(** Lines 213-215: [start], when line 215 does not raise. *)
Definition window_start (env : Env) (offset : Z) : datetime :=
  shift_days (combine (today env) (time 0 0) (LocalTimezone env)) offset.

(** Line 216: [stop], when line 216 does not raise. *)
Definition window_stop (env : Env) (days offset : Z) : datetime :=
  shift_days (window_start env offset) days.

(** Line 222: the test of the [if], when [localize] returns. *)
Definition leading_spillover (env : Env) (start : datetime) : bool :=
  dt_lt start (localize env (date_of start) _SFR_START_TIME).

(** Line 225: the test of the [elif], when [localize] returns. *)
Definition trailing_spillover (env : Env) (stop : datetime) : bool :=
  dt_gt stop (localize env (date_of stop) _SFR_START_TIME).

(** Line 219: one date per day of the window. *)
Definition nominal_dates (start : datetime) (days : Z) : list date :=
  map (fun d => date_of start + d) (range days).

(** Lines 219-227: [sfr_fetch_dates], for [days] as it is after line 203,
    when none of the additions of lines 215 to 225 raises. *)
Definition sfr_fetch_dates (env : Env) (days offset : Z) : list date :=
  let start := window_start env offset in
  let stop := window_stop env days offset in
  let dates := nominal_dates start days in
  if leading_spillover env start then (date_of start - 1) :: dates
  else if trailing_spillover env stop then dates ++ [date_of stop]
  else dates.

(** Whether every addition of days of lines 215 to 227 stays within what
    [timedelta] and [datetime] accept: the two shifts of lines 215 and 216,
    the localization of line 222 and, when the [elif] is reached, that of
    line 225.  The dates of line 219 lie between [start] and [stop], and
    the eve of line 224 is a date that line 222 has already been through. *)
Definition window_in_range (env : Env) (days offset : Z) : bool :=
  (valid_timedelta offset && valid_date (today env + offset))
  && (valid_timedelta days && valid_date (today env + offset + days))
  && localizable (today env + offset)
  && (leading_spillover env (window_start env offset)
      || localizable (today env + offset + days)).

(** The lead of Paris over the machine on the date [d]: the offset of
    Paris at 05:00 less that of the machine at 00:00.  Midnight on the
    machine is before 05:00 in Paris when the lead is under five hours. *)
Definition paris_lead (env : Env) (d : date) : Z :=
  paris_utcoffset env d (time 5 0) - LocalTimezone env d (time 0 0).

(** Line 247: the test that skips a program. *)
Definition outside_period (program_start program_stop start stop : datetime) : bool :=
  dt_lt program_stop start || dt_ge program_start stop.

(** Lines 205-211: the root element. *)
Definition root_element (self : SFRXMLTVGrabber) : Element :=
  let root_xml :=
    Elem (str "tv")
      [(str "source-info-name", str "SFR");
       (str "source-info-url", str "http://tv.sfr.fr/epg");
       (str "source-data-url", _API_URL)] None [] in
  let root_xml :=
    match _generator self with
    | Some g => set_attr root_xml (str "generator-info-name") g
    | None => root_xml
    end in
  match _generator_url self with
  | Some u => set_attr root_xml (str "generator-info-url") u
  | None => root_xml
  end.

(** [datetime.datetime.strptime(e.get(key), _XMLTV_DATETIME_FORMAT)] *)
Definition parse_time (env : Env) (e : Element) (key : pystr) : M datetime :=
  let* s := or_raise TypeError (get e key) in
  or_raise ValueError (strptime env s).

(** What the two loops accumulate: [programs_xml] and [valid_xmltv_ids]. *)
Record grabbed : Type := Grabbed {
  programs_xml : list Element;
  valid_xmltv_ids : gset pystr
}.

(** Lines 235-255: the body of the inner loop.  The channel attribute read
    at line 252 is the one [_parse_program_xmltv] has set. *)
Definition grab_program (env : Env) (xmltv_ids : list pystr) (start stop : datetime)
    (acc : grabbed) (sfr_program_xml : Element) : M grabbed :=
  let* sfr_id := or_raise AttributeError (get sfr_program_xml (str "channel")) in
  if negb (bool_decide (_sfr_to_xmltv_id sfr_id ∈ xmltv_ids)) then ret acc
  else
    let* program_xml := _parse_program_xmltv sfr_program_xml in
    let* program_start := parse_time env program_xml (str "start") in
    let* program_stop := parse_time env program_xml (str "stop") in
    if outside_period program_start program_stop start stop then ret acc
    else
      let* program_xml := _parse_program_xmltv sfr_program_xml in
      let* xmltv_id := or_raise TypeError (get program_xml (str "channel")) in
      ret (Grabbed (programs_xml acc ++ [program_xml]) ({[xmltv_id]} ∪ valid_xmltv_ids acc)).

(** Lines 233-255: the body of the outer loop. *)
Definition grab_date (env : Env) (xmltv_ids : list pystr) (start stop : datetime)
    (acc : grabbed) (d : date) : M grabbed :=
  let* feed := _get_programs env d in
  for_each (grab_program env xmltv_ids start stop) (iter_tag feed (str "programme")) acc.

(** Lines 257-259: one channel element per identifier kept. *)
Definition append_channels (self : SFRXMLTVGrabber) (root_xml : Element) (ids : list pystr)
    : M Element :=
  for_each (fun root xmltv_id =>
              let* channel_xml := _parse_channel_xmltv self xmltv_id in
              ret (append root channel_xml))
           ids root_xml.

(** Lines 213-227 as they run: [start], [stop] and [sfr_fetch_dates], each
    addition of days raising [OverflowError] out of the range of
    [datetime], those inside [localize] included. *)
Definition resolve_window (env : Env) (days offset : Z)
    : M (datetime * datetime * list date) :=
  let* start := add_days (combine (today env) (time 0 0) (LocalTimezone env)) offset in
  let* stop := add_days start days in
  let* dates := for_each (fun dates d =>
                            let* x := date_add (date_of start) d in
                            ret (dates ++ [x]))
                  (range days) [] in
  let* first_feed := pytz_localize env (date_of start) _SFR_START_TIME in
  if dt_lt start first_feed then
    let* eve := date_add (date_of start) (-1) in
    ret (start, stop, eve :: dates)
  else
    let* last_feed := pytz_localize env (date_of stop) _SFR_START_TIME in
    if dt_gt stop last_feed then ret (start, stop, dates ++ [date_of stop])
    else ret (start, stop, dates).

(** [_get_xmltv_data] from line 205 on, [days] being already clamped.
    Python leaves the order in which a [set] is iterated open; [elements]
    stands for it. *)
Definition assemble (self : SFRXMLTVGrabber) (env : Env) (xmltv_ids : list pystr)
    (days offset : Z) : M Element :=
  let root_xml := root_element self in
  let* window := resolve_window env days offset in
  let start := fst (fst window) in
  let stop := snd (fst window) in
  let* acc := for_each (grab_date env xmltv_ids start stop)
                (snd window) (Grabbed [] ∅) in
  let* root_xml := append_channels self root_xml (elements (valid_xmltv_ids acc)) in
  ret (extend root_xml (programs_xml acc)).

(** [_get_xmltv_data] *)
Definition _get_xmltv_data (self : SFRXMLTVGrabber) (env : Env) (xmltv_ids : list pystr)
    (days offset : Z) : M Element :=
  let* days := clamp_days days offset in
  assemble self env xmltv_ids days offset.

(** [write_xmltv]: the document is written, or [OSError] is raised when
    the file cannot be. *)
Definition write_xmltv (self : SFRXMLTVGrabber) (env : Env) (xmltv_ids : list pystr)
    (output_file : pystr) (days offset : Z) : M unit :=
  let* xmltv_data := _get_xmltv_data self env xmltv_ids days offset in
  if can_write env output_file
  then emit (Wrote output_file (Xml xmltv_data))
  else raise OSError.

(* ===================================================================== *)
(** ** Configuration file *)
(* ===================================================================== *)

Definition newline : N := 10%N.

(** The lines of a text, each with its newline, as iterating over an open
    file gives them; the text is the one read, line ends translated. *)
Fixpoint lines_from (cur s : pystr) : list pystr :=
  match s with
  | [] => match cur with [] => [] | _ :: _ => [cur] end
  | c :: s' => if (c =? newline)%N then (cur ++ [c]) :: lines_from [] s'
               else lines_from (cur ++ [c]) s'
  end.

Definition readlines (s : pystr) : list pystr := lines_from [] s.

(** The first of [f n], [f (n - 1)], ..., [f 0] that is not [None]: the order
    in which a greedy quantifier gives characters back. *)
Fixpoint greedy {A} (f : nat -> option A) (n : nat) : option A :=
  match f n with
  | Some a => Some a
  | None => match n with
            | O => None
            | S n' => greedy f n'
            end
  end.

(** The length of the longest prefix whose characters satisfy [p]. *)
Fixpoint span_length (p : N -> bool) (s : pystr) : nat :=
  match s with
  | [] => O
  | c :: s' => if p c then S (span_length p s') else O
  end.

(** [(.+)\s*$]: the group is the longest non-empty run without a newline
    that leaves only white space behind it. *)
Definition match_group (s : pystr) : option pystr :=
  greedy (fun m => if (0 <? m)%nat && forallb isspace (skipn m s)
                   then Some (firstn m s) else None)
         (span_length (fun c => negb (c =? newline)%N) s).

(** [re.search(r'^\s*channel\s*=\s*(.+)\s*$', line)]: [match.group(1)], or
    [None] when the line does not match. *)
Definition match_channel (line : pystr) : option pystr :=
  let l1 := lstrip line in
  if startswith (str "channel") l1 then
    match lstrip (skipn 7 l1) with
    | c :: l2 =>
        if (c =? 61)%N
        then greedy (fun k => match_group (skipn k l2)) (span_length isspace l2)
        else None
    | [] => None
    end
  else None.

(** [_read_configuration] *)
Definition _read_configuration (env : Env) (config_file : pystr) : M (list pystr) :=
  let* config := or_raise OSError (read_file env config_file) in
  ret (fold_left (fun xmltv_ids line =>
                    match match_channel line with
                    | Some g => xmltv_ids ++ [g]
                    | None => xmltv_ids
                    end)
                 (readlines config) []).

(** [_write_configuration]: the text is written to the file, or [OSError]
    is raised when [os.mkdir] or [open] fails. *)
Definition _write_configuration (env : Env) (xmltv_ids : list pystr) (config_file : pystr)
    : M unit :=
  if can_write env config_file
  then emit (Wrote config_file
               (Text (concat (map (fun xmltv_id => str "channel=" ++ xmltv_id ++ [newline])
                                  xmltv_ids))))
  else raise OSError.

(** The [while True] loop of [_configure]: reads answers until one is
    accepted; gives it with the input left, or [None] when the input ends. *)
Fixpoint prompt (answers : list pystr) (input : list pystr) : option (pystr * list pystr) :=
  match input with
  | [] => None
  | line :: input' =>
      let answer := strip line in
      if bool_decide (answer ∈ answers) || negb (nonempty answer)
      then Some (answer, input')
      else prompt answers input'
  end.

(** The state of the [for] loop of [_configure]. *)
Record selection : Type := Selection {
  sel_ids : list pystr;
  select_all : bool;
  select_none : bool;
  sel_answer : pystr;
  sel_input : list pystr
}.

(** [_configure].  The dialogue on the terminal is not recorded, only the
    file written. *)
Definition _configure (env : Env) (available_channels : list (pystr * channel_info))
    (config_file : pystr) : M unit :=
  let answers := [str "yes"; str "no"; str "all"; str "none"] in
  let* sel :=
    for_each
      (fun st (ch : pystr * channel_info) =>
         let xmltv_id := fst ch in
         let* st :=
           if negb (select_all st) && negb (select_none st) then
             let* r := or_raise EOFError (prompt answers (sel_input st)) in
             let answer := fst r in
             ret (Selection (sel_ids st) (str_eqb answer (str "all"))
                    (str_eqb answer (str "none")) answer (snd r))
           else ret st in
         ret (if select_all st || str_eqb (sel_answer st) (str "yes")
              then Selection (sel_ids st ++ [xmltv_id]) (select_all st) (select_none st)
                     (sel_answer st) (sel_input st)
              else st))
      available_channels (Selection [] false false [] (stdin env)) in
  _write_configuration env (sel_ids sel) config_file.

(* ===================================================================== *)
(** ** Main execution path *)
(* ===================================================================== *)

Definition _PROGRAM : pystr := str "tv_grab_fr_sfr".
Definition __version__ : pystr := str "1.0".
Definition __url__ : pystr := str "https://github.com/melmorabity/tv_grab_fr_sfr".
Definition _DESCRIPTION : pystr := str "France (SFR)".
Definition _CAPABILITIES : list pystr := [str "baseline"; str "manualconfig"].
Definition _DEFAULT_DAYS : Z := 1.
Definition _DEFAULT_OFFSET : Z := 0.
Definition _DEFAULT_OUTPUT : pystr := str "/dev/stdout".

(** The namespace [_parse_cli_args] returns. *)
Record Args : Type := {
  arg_description : bool;
  arg_version : bool;
  arg_capabilities : bool;
  arg_configure : bool;
  arg_days : Z;
  arg_offset : Z;
  arg_output : pystr;
  arg_config_file : pystr;
  arg_quiet : bool;
  arg_debug : bool
}.

Definition need_configure : logrec :=
  LogRec ERROR (str "You need to configure the grabber by running it with --configure") [].

Definition empty_configuration (config_file : pystr) : logrec :=
  LogRec ERROR (str "Configuration file %s is empty, delete and run with --configure")
    [ArgStr config_file].

(** [sys.exit(status)] *)
Definition sys_exit {A} (status : Z) : M A := raise (SystemExit status).

(** [os.path.isfile(path)] *)
Definition isfile (env : Env) (path : pystr) : bool :=
  match read_file env path with Some _ => true | None => false end.

(** [_main], after the arguments are parsed. *)
Definition _main (env : Env) (args : Args) : M unit :=
  if arg_version args then
    let* _ := emit (Printed (str "This is " ++ _PROGRAM ++ str " version " ++ __version__)) in
    sys_exit 0
  else if arg_description args then
    let* _ := emit (Printed _DESCRIPTION) in
    sys_exit 0
  else if arg_capabilities args then
    let* _ := emit (Printed (join [newline] _CAPABILITIES)) in
    sys_exit 0
  else
    let* sfr := __init__ env (Some _PROGRAM) (Some __url__) in
    let available_channels := get_available_channels sfr in
    if arg_configure args then
      let* _ := _configure env available_channels (arg_config_file args) in
      sys_exit 0
    else
      let* _ := if negb (isfile env (arg_config_file args))
                then let* _ := log need_configure in sys_exit 1
                else ret tt in
      let* xmltv_ids := _read_configuration env (arg_config_file args) in
      let* _ := match xmltv_ids with
                | [] => log (empty_configuration (arg_config_file args))
                | _ :: _ => ret tt
                end in
      write_xmltv sfr env xmltv_ids (arg_output args) (arg_days args) (arg_offset args).

(** The exit status of the process: 0 when [_main] returns or exits with no
    status, the status given to [sys.exit], 1 for an uncaught exception. *)
Definition exit_status {A} (r : result A) : Z :=
  match r with
  | Ok _ => 0
  | Raise (SystemExit status) => status
  | Raise _ => 1
  end.

(** Whether an XMLTV document has been written. *)
Definition wrote_document (evs : list event) : bool :=
  existsb (fun ev => match ev with Wrote _ (Xml _) => true | _ => false end) evs.

(* ===================================================================== *)
(** ** A concrete world *)
(* ===================================================================== *)

(** The definitions above take the date parser and the zone database as
    they come.  The ones below give instances to run the grabber on: a
    parser for the shape the feed of the vendor uses, fourteen digits, a
    space, a sign and four digits, and the rule Europe/Paris follows since
    1996. *)

(** Reads [n] decimal digits. *)
Fixpoint digits (n : nat) (acc : Z) (s : pystr) : option (Z * pystr) :=
  match n with
  | O => Some (acc, s)
  | S n' =>
      match s with
      | c :: s' =>
          if ((48 <=? c) && (c <=? 57))%N
          then digits n' (acc * 10 + (Z.of_N c - 48)) s'
          else None
      | [] => None
      end
  end.

(** A field is valid when it is in the range the calendar allows. *)
Definition valid_fields (year month day hour minute second zm : Z) : bool :=
  (1 <=? year) && (1 <=? month) && (month <=? 12)
  && (1 <=? day) && (day <=? days_in_month year month)
  && (hour <=? 23) && (minute <=? 59) && (second <=? 59) && (zm <=? 59).

(** The sign of the offset, from the character [+] or [-]. *)
Definition sign_of (c : N) : option Z :=
  if (c =? 43)%N then Some 1 else if (c =? 45)%N then Some (-1) else None.

Definition strptime_xmltv (s : pystr) : option datetime :=
  '(year, s) ← digits 4 0 s;
  '(month, s) ← digits 2 0 s;
  '(day, s) ← digits 2 0 s;
  '(hour, s) ← digits 2 0 s;
  '(minute, s) ← digits 2 0 s;
  '(second, s) ← digits 2 0 s;
  '(sp, s) ← (match s with c :: s' => Some (c, s') | [] => None end);
  '(sign_char, s) ← (match s with c :: s' => Some (c, s') | [] => None end);
  sign ← sign_of sign_char;
  '(zh, s) ← digits 2 0 s;
  '(zm, s) ← digits 2 0 s;
  if (sp =? 32)%N && negb (nonempty s)
     && valid_fields year month day hour minute second zm
  then Some (DateTime (ymd2ord year month day)
               (hour * 3600 + minute * 60 + second)
               (fixed_offset (sign * (zh * 3600 + zm * 60))))
  else None.

(** The last Sunday of a month of 31 days; ordinals of Sundays are the
    multiples of 7. *)
Definition last_sunday (y m : Z) : date :=
  let d := ymd2ord y m 31 in d - d mod 7.

(** Central European time: one hour from UTC, two between the last Sunday
    of March, 03:00 on the wall clock, and the last Sunday of October,
    02:00. *)
Definition europe_paris : tzinfo :=
  fun d t =>
    let y := year_of d in
    let wall := d * 86400 + t in
    if (last_sunday y 3 * 86400 + 3 * 3600 <=? wall)
       && (wall <? last_sunday y 10 * 86400 + 2 * 3600)
    then 7200 else 3600.

(** A machine in Paris or elsewhere, on a given day, with a given feed, on
    which every file can be written. *)
Definition world (day : date) (local : tzinfo) (feed : date -> option Element)
    (files : pystr -> option pystr) : Env :=
  {| today := day;
     LocalTimezone := local;
     paris_utcoffset := europe_paris;
     strptime := strptime_xmltv;
     urlopen := feed;
     read_file := files;
     can_write := fun _ => true;
     stdin := [] |}.


(** A record of the feed: a [programme] element with a title. *)
Definition programme (channel start stop title : string) : Element :=
  Elem (str "programme")
    [(str "start", str start); (str "stop", str stop); (str "channel", str channel)]
    None [Elem (str "title") [] (Some (str title)) []].

(** A [channel] element of the feed. *)
Definition channel (id name : string) : Element :=
  Elem (str "channel") [(str "id", str id)] None
    [Elem (str "display-name") [] (Some (str name)) []].

Definition late_show : Element :=
  programme "chan_a" "20231231220000 +0100" "20240101000000 +0100" "Late show".

Definition night_film : Element :=
  programme "chan_a" "20240101000000 +0100" "20240101030000 +0100" "Night film".

Definition early_news : Element :=
  programme "chan_a" "20240101030000 +0100" "20240101060000 +0100" "Early news".

Definition evening_film : Element :=
  programme "chan_a" "20240101200000 +0100" "20240101220000 +0100" "Evening film".

Definition next_day : Element :=
  programme "chan_a" "20240102000000 +0100" "20240102010000 +0100" "Next day".

Definition elsewhere : Element :=
  programme "chan_b" "20240101200000 +0100" "20240101220000 +0100" "Elsewhere".

Definition feed_20231231 : Element :=
  Elem (str "tv") [] None
    [channel "chan_a" "Chan A"; channel "chan_b" "Chan B";
     late_show; night_film; early_news].

Definition feed_20240101 : Element :=
  Elem (str "tv") [] None
    [channel "chan_a" "Chan A"; channel "chan_b" "Chan B";
     evening_film; elsewhere; next_day].

(** The server on 2024-01-01: two days of feed. *)
Definition feeds (d : date) : option Element :=
  if d =? ymd2ord 2023 12 31 then Some feed_20231231
  else if d =? ymd2ord 2024 1 1 then Some feed_20240101
  else None.

Definition conf_path : pystr := str "/home/user/.xmltv/tv_grab_fr_sfr.conf".

(** A file system with the configuration file only. *)
Definition only_conf (conf : pystr) (path : pystr) : option pystr :=
  if str_eqb path conf_path then Some conf else None.

(** No file at all. *)
Definition no_file (path : pystr) : option pystr := None.

(** A machine in Paris on 2024-01-01. *)
Definition paris_2024 (files : pystr -> option pystr) : Env :=
  world (ymd2ord 2024 1 1) europe_paris feeds files.

(** The same day on a machine eight hours behind UTC. *)
Definition pacific_2024 (files : pystr -> option pystr) : Env :=
  world (ymd2ord 2024 1 1) (fixed_offset (-28800)) feeds files.

(** The grabber as [_main] builds it. *)
Definition grabber_2024 : SFRXMLTVGrabber :=
  Grabber [(str "chan-a.tv.sfr.fr", ChannelInfo (str "chan_a") (str "Chan A"));
           (str "chan-b.tv.sfr.fr", ChannelInfo (str "chan_b") (str "Chan B"))]
    (Some _PROGRAM) (Some __url__).

(** The command line without any option. *)
Definition default_args : Args :=
  {| arg_description := false; arg_version := false; arg_capabilities := false;
     arg_configure := false; arg_days := _DEFAULT_DAYS; arg_offset := _DEFAULT_OFFSET;
     arg_output := _DEFAULT_OUTPUT; arg_config_file := conf_path;
     arg_quiet := false; arg_debug := false |}.

(* ===================================================================== *)
(** ** The specification's wording *)
(* ===================================================================== *)

(** The mapping as the specification words it: each character is mapped on
    its own, then the suffix is appended. *)
Definition map_char (c : N) : pystr :=
  if (c =? 95)%N then str "-" else if (c =? 43)%N then str "PLUS" else [c].

Definition id_mapping (vendor_id : pystr) : pystr :=
  flat_map map_char vendor_id ++ str ".tv.sfr.fr".

(** An element that holds text only. *)
Definition text_element (t : pystr) (attrs : list (pystr * pystr)) (x : pystr) : Element :=
  Elem t attrs (Some x) [].

(** An element emitted only when its text is not empty. *)
Definition optional_element (t : pystr) (attrs : list (pystr * pystr)) (x : pystr)
    : list Element :=
  if nonempty x then [text_element t attrs x] else [].

Definition lang_fr : list (pystr * pystr) := [(str "lang", str "fr")].

(** The trimmed category and meta-category of a record. *)
Definition category_of (sfr_xml : Element) : pystr :=
  strip (findtext_default sfr_xml (str "category") []).

Definition meta_category_of (sfr_xml : Element) : pystr :=
  strip (findtext_default sfr_xml (str "metacategory") []).

(** The trimmed identifier of a record, empty when it has none. *)
Definition program_id_of (sfr_xml : Element) : pystr :=
  strip (get_default sfr_xml (str "id") []).

(** Section 4.5, category: the standard equivalent when it is not empty,
    then the original category in French, then the meta-category in French
    when it is present and distinct. *)
Definition category_elements (sfr_xml : Element) : list Element :=
  let category := category_of sfr_xml in
  let meta_category := meta_category_of sfr_xml in
  if nonempty category then
    match dict_get category _ETSI_PROGRAM_CATEGORIES with
    | Some etsi => optional_element (str "category") [] etsi
    | None => []
    end
    ++ [text_element (str "category") lang_fr category]
    ++ (if nonempty meta_category && negb (str_eqb meta_category category)
        then [text_element (str "category") lang_fr meta_category] else [])
  else [].

(** The warning of an unknown category. *)
Definition category_warnings (sfr_xml : Element) : list event :=
  let category := category_of sfr_xml in
  if nonempty category then
    match dict_get category _ETSI_PROGRAM_CATEGORIES with
    | Some _ => []
    | None => [Logged (no_etsi_equivalent category)]
    end
  else [].

(** The [url] element, from the title as the transformer holds it. *)
Definition url_elements (title : pystr) (sfr_xml : Element) : list Element :=
  let program_id := program_id_of sfr_xml in
  if nonempty program_id
  then [text_element (str "url") [] (program_url title program_id)] else [].

(** The [star-rating] element. *)
Definition star_elements (sfr_xml : Element) : list Element :=
  match find sfr_xml (str "star-rating") with
  | Some star_rating_xml =>
      let star_rating := strip (findtext_default star_rating_xml (str "value") []) in
      if nonempty star_rating
      then [Elem (str "star-rating") [(str "system", str "SFR")] None
              [text_element (str "value") [] star_rating]]
      else []
  | None => []
  end.

(** The children of the element a record is transformed into. *)
Definition program_children (title_text : pystr) (sfr_xml : Element) : list Element :=
  [text_element (str "title") [] (strip title_text)]
  ++ optional_element (str "sub-title") [] (strip (findtext_default sfr_xml (str "sub-title") []))
  ++ optional_element (str "desc") lang_fr (strip (findtext_default sfr_xml (str "desc") []))
  ++ category_elements sfr_xml
  ++ url_elements (strip title_text) sfr_xml
  ++ star_elements sfr_xml.

(** Section 4.5 as a whole: what a record is transformed into, or the
    exception a missing attribute or title ends in. *)
Definition transformed (sfr_xml : Element) : result Element :=
  match get sfr_xml (str "channel") with
  | None => Raise AttributeError
  | Some sfr_channel =>
  match get sfr_xml (str "start") with
  | None => Raise TypeError
  | Some start =>
  match get sfr_xml (str "stop") with
  | None => Raise TypeError
  | Some stop =>
  match findtext sfr_xml (str "title") with
  | None => Raise AttributeError
  | Some title_text =>
      Ok (Elem (str "programme")
            [(str "channel", _sfr_to_xmltv_id sfr_channel);
             (str "start", start); (str "stop", stop)]
            None (program_children title_text sfr_xml))
  end end end end.

(** The events of a transformation. *)
Definition transform_events (sfr_xml : Element) : list event :=
  match transformed sfr_xml with
  | Ok _ => category_warnings sfr_xml
  | Raise _ => []
  end.

(** Section 4.5, program detail URL, read to the letter: the title as the
    feed gives it, not trimmed. *)
Definition url_of_untrimmed_title (sfr_xml : Element) : list Element :=
  match findtext sfr_xml (str "title") with
  | Some title_text => url_elements title_text sfr_xml
  | None => []
  end.

(** A record whose title is surrounded by spaces. *)
Definition padded_title : Element :=
  Elem (str "programme")
    [(str "start", str "20240101200000 +0100"); (str "stop", str "20240101210000 +0100");
     (str "channel", str "chan_a"); (str "id", str "42")]
    None [Elem (str "title") [] (Some (str " Journal ")) []].

(** A record without a title. *)
Definition title_less : Element :=
  Elem (str "programme")
    [(str "start", str "20240101200000 +0100"); (str "stop", str "20240101210000 +0100");
     (str "channel", str "chan_a")]
    None [Elem (str "desc") [] (Some (str "No title was given")) []].

(** A record with a category the table does not know and a meta-category. *)
Definition categorised : Element :=
  Elem (str "programme")
    [(str "start", str "20240101200000 +0100"); (str "stop", str "20240101210000 +0100");
     (str "channel", str "chan_a")]
    None [Elem (str "title") [] (Some (str "Le journal")) [];
          Elem (str "category") [] (Some (str " Sport ")) [];
          Elem (str "metacategory") [] (Some (str "Direct")) []].

(** The value of [days] after lines 200-203. *)
Definition effective_days (days offset : Z) : Z :=
  if days + offset >? _MAX_DAYS then Z.min (_MAX_DAYS - offset) _MAX_DAYS else days.

(** What the loops of the assembler keep true: the set of identifiers is
    the set of the channels of the programs kept, all of them [programme]
    elements. *)
Definition grabbed_ok (acc : grabbed) : Prop :=
  (forall x, x ∈ valid_xmltv_ids acc
             <-> exists p, In p (programs_xml acc) /\ get p (str "channel") = Some x)
  /\ Forall (fun e => tag e = str "programme") (programs_xml acc).

(** A day of feed that holds a record without a title. *)
Definition feed_title_less : Element :=
  Elem (str "tv") [] None [channel "chan_a" "Chan A"; night_film; title_less; early_news].

Definition feeds_title_less (d : date) : option Element :=
  if d =? ymd2ord 2023 12 31 then Some feed_title_less else feeds d.

(** A configuration file that selects no channel. *)
Definition conf_without_channel : pystr :=
  str "# channels to grab" ++ [newline] ++ [newline].

(** A configuration file that selects the first channel. *)
Definition conf_chan_a : pystr :=
  str "channel=chan-a.tv.sfr.fr" ++ [newline].

(** The identifiers and the times of the [programme] elements of a
    document. *)
Definition programme_times (doc : Element) : list (option pystr * option pystr * option pystr) :=
  map (fun p => (get p (str "channel"), get p (str "start"), get p (str "stop")))
      (findall doc (str "programme")).

(** The identifiers of the [channel] elements of a document. *)
Definition channel_ids (doc : Element) : list (option pystr) :=
  map (fun c => get c (str "id")) (findall doc (str "channel")).

(** The elements of a list all have the tag [t]. *)
Definition all_tagged (t : pystr) (l : list Element) : Prop :=
  Forall (fun e => tag e = t) l.

(** An identifier that goes through the configuration file unchanged: not
    empty, no white space in front, and neither a line feed nor a carriage
    return, which reading the file back would take for the end of a
    line. *)
Definition plain_id (xmltv_id : pystr) : bool :=
  match xmltv_id with
  | [] => false
  | c :: _ => negb (isspace c) && negb (contains newline xmltv_id)
              && negb (contains 13 xmltv_id)
  end.

(** A vendor identifier without a hyphen and without a capital P, the two
    characters the mapping writes for others. *)
Definition unambiguous_id (sfr_id : pystr) : bool :=
  negb (contains 45 sfr_id) && negb (contains 80 sfr_id).

(** What holds of the catalogue once the channel elements [seen] have been
    gone through: the keys are distinct, every entry comes from an element
    that has an identifier and a name and sits under the mapping of that
    identifier, every such element has its entry. *)
Definition catalogue_ok (seen : list Element) (channels : list (pystr * channel_info)) : Prop :=
  NoDup (map fst channels)
  /\ (forall k info,
        dict_get k channels = Some info ->
        k = _sfr_to_xmltv_id (sfr_id info)
        /\ exists ch, In ch seen
                      /\ get ch (str "id") = Some (sfr_id info)
                      /\ findtext ch (str "display-name") = Some (display_name info))
  /\ (forall ch i n,
        In ch seen -> get ch (str "id") = Some i ->
        findtext ch (str "display-name") = Some n ->
        exists info, dict_get (_sfr_to_xmltv_id i) channels = Some info).

(** The time an attribute of a record stands for, [None] when the
    attribute is missing or is not a time. *)
Definition time_of (env : Env) (r : Element) (key : pystr) : option datetime :=
  match get r key with
  | Some s => strptime env s
  | None => None
  end.

(** What a record of the feed contributes to the document: its
    transformation when its channel is selected and it is not outside the
    period, nothing otherwise. *)
Definition kept_program (env : Env) (xmltv_ids : list pystr) (start stop : datetime)
    (r : Element) : list Element :=
  match get r (str "channel") with
  | Some c =>
      if bool_decide (_sfr_to_xmltv_id c ∈ xmltv_ids) then
        match transformed r, time_of env r (str "start"), time_of env r (str "stop") with
        | Ok p, Some program_start, Some program_stop =>
            if outside_period program_start program_stop start stop then [] else [p]
        | _, _, _ => []
        end
      else []
  | None => []
  end.

(** The records kept over the dates fetched, in the order of the dates and,
    within a feed, of the document. *)
Definition kept_programs (env : Env) (xmltv_ids : list pystr) (days offset : Z)
    : list Element :=
  flat_map
    (fun d => match urlopen env d with
              | Some feed =>
                  flat_map (kept_program env xmltv_ids (window_start env offset)
                              (window_stop env days offset))
                    (iter_tag feed (str "programme"))
              | None => []
              end)
    (sfr_fetch_dates env days offset).

(** The channel element of an identifier and a name. *)
Definition channel_element (xmltv_id name : pystr) : Element :=
  Elem (str "channel") [(str "id", xmltv_id)] None
    [Elem (str "display-name") [] (Some name) []].

(** A record the assembler can go through: it names its channel, and when
    that channel is selected it has its two times, both readable, and a
    title, and the channel is in the catalogue. *)
Definition record_ok (self : SFRXMLTVGrabber) (env : Env) (xmltv_ids : list pystr)
    (r : Element) : Prop :=
  exists c,
    get r (str "channel") = Some c
    /\ (_sfr_to_xmltv_id c ∈ xmltv_ids ->
        (exists t, findtext r (str "title") = Some t)
        /\ (exists program_start, time_of env r (str "start") = Some program_start)
        /\ (exists program_stop, time_of env r (str "stop") = Some program_stop)
        /\ exists info, dict_get (_sfr_to_xmltv_id c) (_channels self) = Some info).

(** A record of the first channel, in the evening of 2024-01-01, with a
    category the table does not know. *)
Definition unknown_category : Element :=
  Elem (str "programme")
    [(str "start", str "20240101200000 +0100"); (str "stop", str "20240101210000 +0100");
     (str "channel", str "chan_a")]
    None [Elem (str "title") [] (Some (str "Le grand quiz")) [];
          Elem (str "category") [] (Some (str "Divertissement")) []].

(** Whether the channel of a record is selected. *)
Definition selected (xmltv_ids : list pystr) (r : Element) : bool :=
  match get r (str "channel") with
  | Some c => bool_decide (_sfr_to_xmltv_id c ∈ xmltv_ids)
  | None => false
  end.

(** A channel element made from the catalogue. *)
Definition from_catalogue (self : SFRXMLTVGrabber) (xmltv_id : pystr) (c : Element) : Prop :=
  exists info,
    dict_get xmltv_id (_channels self) = Some info
    /\ c = channel_element xmltv_id (display_name info).

(** The body of the [for] loop of [_configure]. *)
Definition configure_step (st : selection) (ch : pystr * channel_info) : M selection :=
  let xmltv_id := fst ch in
  let* st :=
    if negb (select_all st) && negb (select_none st) then
      let* r := or_raise EOFError
                  (prompt [str "yes"; str "no"; str "all"; str "none"] (sel_input st)) in
      let answer := fst r in
      ret (Selection (sel_ids st) (str_eqb answer (str "all"))
             (str_eqb answer (str "none")) answer (snd r))
    else ret st in
  ret (if select_all st || str_eqb (sel_answer st) (str "yes")
       then Selection (sel_ids st ++ [xmltv_id]) (select_all st) (select_none st)
              (sel_answer st) (sel_input st)
       else st).

(** The text of the configuration file of a list of identifiers. *)
Definition configuration_text (xmltv_ids : list pystr) : pystr :=
  concat (map (fun xmltv_id => str "channel=" ++ xmltv_id ++ [newline]) xmltv_ids).

(** The events [later] are [earlier] followed by log records only. *)
Definition only_logged (earlier later : list event) : Prop :=
  exists rs, later = earlier ++ map Logged rs.

(** The machine in Paris on 2024-01-01, with answers typed on it. *)
Definition typing_2024 (answers : list pystr) : Env :=
  {| today := ymd2ord 2024 1 1; LocalTimezone := europe_paris;
     paris_utcoffset := europe_paris; strptime := strptime_xmltv;
     urlopen := feeds; read_file := no_file; can_write := fun _ => true;
     stdin := answers |}.

(* ===================================================================== *)
(** * Properties *)
(* ===================================================================== *)

(** ** Identifier mapping *)

Lemma replace_one_char (a : N) (new s : pystr) :
  replace [a] new s = flat_map (fun c => if (c =? a)%N then new else [c]) s.
Proof.
  unfold replace. induction s as [|c s IH]; [reflexivity|].
  cbn [replace_from startswith flat_map length Nat.pred].
  rewrite N.eqb_sym, andb_true_r.
  destruct (c =? a)%N; cbn; now rewrite IH.
Qed.

Lemma contains_app (c : N) (s t : pystr) :
  contains c (s ++ t) = contains c s || contains c t.
Proof. unfold contains. apply existsb_app. Qed.

Lemma contains_flat_map (c : N) (f : N -> pystr) (s : pystr) :
  (forall x, contains c (f x) = false) -> contains c (flat_map f s) = false.
Proof.
  intros Hf. induction s as [|x s IH]; [reflexivity|].
  cbn [flat_map]. now rewrite contains_app, Hf, IH.
Qed.

Lemma map_char_clean (x : N) :
  contains 95 (map_char x) = false /\ contains 43 (map_char x) = false.
Proof.
  unfold map_char.
  destruct (x =? 95)%N eqn:E1; [now split|].
  destruct (x =? 43)%N eqn:E2; [now split|].
  unfold contains. cbn [existsb]. rewrite !orb_false_r. split.
  - rewrite N.eqb_sym. exact E1.
  - rewrite N.eqb_sym. exact E2.
Qed.

(** C8. [_sfr_to_xmltv_id] is a function of the vendor identifier alone: it
    is the character-wise mapping (underscore to hyphen, plus sign to
    [PLUS]) followed by the suffix [.tv.sfr.fr], and its result holds
    neither an underscore nor a plus sign. *)
Theorem sfr_to_xmltv_id_mapping (vendor_id : pystr) :
  _sfr_to_xmltv_id vendor_id = id_mapping vendor_id
  /\ contains 95 (_sfr_to_xmltv_id vendor_id) = false
  /\ contains 43 (_sfr_to_xmltv_id vendor_id) = false.
Proof.
  assert (E : _sfr_to_xmltv_id vendor_id = id_mapping vendor_id).
  { unfold _sfr_to_xmltv_id, id_mapping. f_equal.
    change (str "+") with [43%N]. change (str "_") with [95%N].
    rewrite !replace_one_char.
    induction vendor_id as [|c s IH]; [reflexivity|].
    cbn [flat_map]. rewrite flat_map_app, IH. f_equal.
    unfold map_char. destruct (c =? 95)%N eqn:E1; [reflexivity|].
    cbn. now rewrite app_nil_r. }
  rewrite E. unfold id_mapping. rewrite !contains_app.
  rewrite !contains_flat_map by (intros x; apply map_char_clean).
  now repeat split.
Qed.

Example sfr_id_canal : _sfr_to_xmltv_id (str "canal+_sport") = str "canalPLUS-sport.tv.sfr.fr".
Proof. reflexivity. Qed.

(** ** Window resolver *)



(** The list of dates, whatever [days] and [offset] are: the nominal dates,
    with the day before in front when the [if] holds, else with the date
    of [stop] behind when the [elif] holds. *)
Lemma sfr_fetch_dates_shape (env : Env) (days offset : Z) :
  let start := window_start env offset in
  let stop := window_stop env days offset in
  sfr_fetch_dates env days offset
  = (if leading_spillover env start then [date_of start - 1] else [])
    ++ nominal_dates start days
    ++ (if negb (leading_spillover env start) && trailing_spillover env stop
        then [date_of stop] else []).
Proof.
  cbv zeta. unfold sfr_fetch_dates.
  destruct (leading_spillover env (window_start env offset)); cbn [negb andb app].
  - now rewrite app_nil_r.
  - destruct (trailing_spillover env (window_stop env days offset));
      [reflexivity | now rewrite app_nil_r].
Qed.


Lemma clamp_days_beyond (days offset : Z) (evs : list event) :
  days + offset > _MAX_DAYS ->
  clamp_days days offset evs
  = (Ok (Z.min (_MAX_DAYS - offset) _MAX_DAYS), evs ++ [Logged too_many_days]).
Proof.
  intros H. unfold clamp_days.
  destruct (Z.gtb_spec (days + offset) _MAX_DAYS) as [G|G]; [reflexivity | lia].
Qed.

Lemma dates_loop (s : date) (ds : list Z) :
  forall (acc : list date) (evs : list event),
    (forall d, In d ds -> valid_timedelta d && valid_date (s + d) = true) ->
    for_each (fun dates d => let* x := date_add s d in ret (dates ++ [x])) ds acc evs
    = (Ok (acc ++ map (fun d => s + d) ds), evs).
Proof.
  induction ds as [|d ds IH]; intros acc evs H.
  - cbn. unfold ret. now rewrite app_nil_r.
  - cbn [for_each map]. unfold bind at 1 2, date_add.
    rewrite (H d (or_introl eq_refl)). unfold ret at 1 2.
    rewrite IH by (intros x Hx; apply H; now right).
    now rewrite <- app_assoc.
Qed.

Lemma range_in (n d : Z) : In d (range n) <-> 0 <= d < n.
Proof.
  unfold range. rewrite in_map_iff. split.
  - intros (i & <- & Hi). apply in_seq in Hi. lia.
  - intros H. exists (Z.to_nat d). split; [lia|]. apply in_seq. lia.
Qed.

Lemma valid_date_between (a b d : Z) :
  valid_date a = true -> valid_date b = true -> a <= d <= b -> valid_date d = true.
Proof.
  unfold valid_date, MINORDINAL, MAXORDINAL. rewrite !andb_true_iff, !Z.leb_le. lia.
Qed.

Lemma valid_timedelta_between (a d : Z) :
  valid_timedelta a = true -> 0 <= d <= a -> valid_timedelta d = true.
Proof. unfold valid_timedelta. rewrite !andb_true_iff, !Z.leb_le. lia. Qed.

(** Lines 213-227 raise [OverflowError], before anything is fetched or
    logged, exactly when an addition of days leaves the range; otherwise
    they give [window_start], [window_stop] and [sfr_fetch_dates]. *)
Lemma resolve_window_cases (env : Env) (days offset : Z) (evs : list event) :
  resolve_window env days offset evs
  = if window_in_range env days offset
    then (Ok (window_start env offset, window_stop env days offset,
              sfr_fetch_dates env days offset), evs)
    else (Raise OverflowError, evs).
Proof.
  unfold resolve_window, window_in_range. unfold bind at 1. unfold add_days at 1.
  cbn [combine dt_date].
  destruct (valid_timedelta offset && valid_date (today env + offset)) eqn:E1;
    [|reflexivity].
  unfold ret at 1.
  change (shift_days (combine (today env) (time 0 0) (LocalTimezone env)) offset)
    with (window_start env offset).
  unfold bind at 1. unfold add_days at 1.
  change (dt_date (window_start env offset)) with (today env + offset).
  destruct (valid_timedelta days && valid_date (today env + offset + days)) eqn:E2;
    [|reflexivity].
  unfold ret at 1.
  change (shift_days (window_start env offset) days) with (window_stop env days offset).
  apply andb_true_iff in E1 as [E1a E1b]. apply andb_true_iff in E2 as [E2a E2b].
  unfold bind at 1. rewrite dates_loop.
  2:{ intros d Hd. apply range_in in Hd.
      change (date_of (window_start env offset)) with (today env + offset).
      apply andb_true_iff. split.
      - apply (valid_timedelta_between days); [exact E2a | lia].
      - apply (valid_date_between (today env + offset) (today env + offset + days));
          [assumption..|lia]. }
  cbn [app andb]. unfold sfr_fetch_dates. fold (nominal_dates (window_start env offset) days).
  unfold bind at 1. unfold pytz_localize at 1.
  change (date_of (window_start env offset)) with (today env + offset).
  change (date_of (window_stop env days offset)) with (today env + offset + days).
  destruct (localizable (today env + offset)) eqn:E3; [|reflexivity].
  unfold ret at 1.
  change (dt_lt (window_start env offset)
            (localize env (today env + offset) _SFR_START_TIME))
    with (leading_spillover env (window_start env offset)).
  destruct (leading_spillover env (window_start env offset)); cbn [orb].
  - unfold bind, date_add.
    change (valid_timedelta (-1)) with true. cbn [andb].
    change (today env + offset + -1) with (today env + offset - 1).
    unfold localizable in E3. apply andb_true_iff in E3 as [-> _]. reflexivity.
  - unfold bind, pytz_localize.
    destruct (localizable (today env + offset + days)); [|reflexivity].
    unfold ret at 1.
    change (dt_gt (window_stop env days offset)
              (localize env (today env + offset + days) _SFR_START_TIME))
      with (trailing_spillover env (window_stop env days offset)).
    now destruct (trailing_spillover env (window_stop env days offset)).
Qed.

(** [assemble] raises [OverflowError] when the window leaves the range and
    otherwise goes through the feeds of [sfr_fetch_dates]. *)
Lemma assemble_cases (self : SFRXMLTVGrabber) (env : Env) xmltv_ids days offset evs :
  assemble self env xmltv_ids days offset evs
  = if window_in_range env days offset
    then (let* acc := for_each (grab_date env xmltv_ids (window_start env offset)
                                  (window_stop env days offset))
                        (sfr_fetch_dates env days offset) (Grabbed [] ∅) in
          let* root_xml := append_channels self (root_element self)
                             (elements (valid_xmltv_ids acc)) in
          ret (extend root_xml (programs_xml acc))) evs
    else (Raise OverflowError, evs).
Proof.
  unfold assemble. unfold bind at 1. rewrite resolve_window_cases.
  now destruct (window_in_range env days offset).
Qed.


(** C4. Beyond the lookahead ([offset + days > 14], [0 <= offset <= 14])
    the warning is logged, nothing is raised, and [days] becomes
    [14 - offset], which is not negative; the window and the dates to fetch
    are those of [14 - offset] days. *)
Theorem clamp_days_beyond_lookahead (days offset : Z) (evs : list event) :
  offset + days > 14 -> 0 <= offset <= 14 ->
  clamp_days days offset evs = (Ok (14 - offset), evs ++ [Logged too_many_days])
  /\ 0 <= 14 - offset
  /\ log_level too_many_days = WARNING
  /\ forall self env xmltv_ids,
       _get_xmltv_data self env xmltv_ids days offset evs
       = assemble self env xmltv_ids (14 - offset) offset (evs ++ [Logged too_many_days]).
Proof.
  intros Hsum Ho.
  assert (E : clamp_days days offset evs
              = (Ok (14 - offset), evs ++ [Logged too_many_days])).
  { rewrite clamp_days_beyond by (unfold _MAX_DAYS; lia).
    unfold _MAX_DAYS. now rewrite Z.min_l by lia. }
  split; [exact E|]. split; [lia|]. split; [reflexivity|].
  intros self env xmltv_ids. unfold _get_xmltv_data, bind. now rewrite E.
Qed.



(** ** Record transformer *)

Lemma add_categories_children (sfr_xml : Element) t a x cs (evs : list event) :
  add_categories sfr_xml (Elem t a x cs) evs
  = (Ok (Elem t a x (cs ++ category_elements sfr_xml)), evs ++ category_warnings sfr_xml).
Proof.
  unfold add_categories, category_elements, category_warnings, category_of,
    meta_category_of, optional_element, text_element, lang_fr.
  set (category := strip (findtext_default sfr_xml (str "category") [])).
  set (meta := strip (findtext_default sfr_xml (str "metacategory") [])).
  destruct (nonempty category) eqn:Hc; unfold ret.
  2:{ now rewrite !app_nil_r. }
  unfold bind, _etsi_category, log, emit, ret.
  destruct (dict_get category _ETSI_PROGRAM_CATEGORIES) as [etsi|]; cbn [bind].
  - rewrite app_nil_r. destruct (nonempty etsi);
      destruct (nonempty meta && negb (str_eqb meta category));
      cbn [SubElement app]; rewrite <- ?app_assoc; reflexivity.
  - destruct (nonempty meta && negb (str_eqb meta category));
      cbn [SubElement app]; rewrite <- ?app_assoc; reflexivity.
Qed.

Lemma add_star_rating_children (sfr_xml : Element) t a x cs :
  add_star_rating sfr_xml (Elem t a x cs) = Elem t a x (cs ++ star_elements sfr_xml).
Proof.
  unfold add_star_rating, star_elements, text_element.
  destruct (find sfr_xml (str "star-rating")) as [r|]; [|now rewrite app_nil_r].
  destruct (nonempty _); [reflexivity | now rewrite app_nil_r].
Qed.

(** The transformer computes what section 4.5 describes. *)
Lemma parse_program_transformed (sfr_xml : Element) (evs : list event) :
  _parse_program_xmltv sfr_xml evs = (transformed sfr_xml, evs ++ transform_events sfr_xml).
Proof.
  unfold _parse_program_xmltv, transform_events, transformed, or_raise, bind, raise, ret.
  destruct (get sfr_xml (str "channel")) as [c|]; [|now rewrite app_nil_r].
  destruct (get sfr_xml (str "start")) as [s|]; [|now rewrite app_nil_r].
  destruct (get sfr_xml (str "stop")) as [e|]; [|now rewrite app_nil_r].
  destruct (findtext sfr_xml (str "title")) as [t|]; [|now rewrite app_nil_r].
  unfold program_children, url_elements, optional_element, program_id_of, text_element.
  destruct (nonempty (strip (findtext_default sfr_xml (str "sub-title") [])));
    destruct (nonempty (strip (findtext_default sfr_xml (str "desc") [])));
    cbn [SubElement app]; rewrite add_categories_children;
    destruct (nonempty (strip (get_default sfr_xml (str "id") [])));
    cbn [SubElement app]; rewrite add_star_rating_children;
    cbn [app]; rewrite <- ?app_assoc; cbn [app]; rewrite ?app_nil_r; reflexivity.
Qed.

Lemma filter_tagged_same (t : pystr) (l : list Element) :
  all_tagged t l -> List.filter (fun c => str_eqb (tag c) t) l = l.
Proof.
  induction 1 as [|e l He _ IH]; [reflexivity|].
  cbn [List.filter]. unfold str_eqb at 1. rewrite bool_decide_eq_true_2 by exact He.
  now rewrite IH.
Qed.

Lemma filter_tagged_other (t u : pystr) (l : list Element) :
  all_tagged t l -> str_eqb t u = false ->
  List.filter (fun c => str_eqb (tag c) u) l = [].
Proof.
  intros Hl Hne. induction Hl as [|e l He _ IH]; [reflexivity|].
  cbn [List.filter]. now rewrite He, Hne.
Qed.

Lemma optional_element_tagged t attrs x : all_tagged t (optional_element t attrs x).
Proof. unfold optional_element. destruct (nonempty x); repeat constructor. Qed.

Lemma category_elements_tagged sfr_xml :
  all_tagged (str "category") (category_elements sfr_xml).
Proof.
  unfold category_elements, all_tagged.
  destruct (nonempty (category_of sfr_xml)); [|constructor].
  rewrite !Forall_app. split; [|split].
  - destruct (dict_get _ _); [apply optional_element_tagged | constructor].
  - repeat constructor.
  - destruct (_ && _); repeat constructor.
Qed.

Lemma url_elements_tagged title sfr_xml : all_tagged (str "url") (url_elements title sfr_xml).
Proof. unfold url_elements. destruct (nonempty _); repeat constructor. Qed.

Lemma star_elements_tagged sfr_xml :
  all_tagged (str "star-rating") (star_elements sfr_xml).
Proof.
  unfold star_elements. destruct (find _ _); [|constructor].
  destruct (nonempty _); repeat constructor.
Qed.

Create HintDb tagged.

#[local] Hint Resolve optional_element_tagged category_elements_tagged
  url_elements_tagged star_elements_tagged : tagged.

(** Filters the children of a transformed record by a tag: a group of
    another tag vanishes, the group of the tag stays. *)
Ltac filter_children :=
  unfold findall, children, program_children;
  rewrite !List.filter_app;
  repeat match goal with
    | |- context [List.filter (fun c => str_eqb (tag c) ?u) ?l] =>
        first
          [ rewrite (filter_tagged_same u l) by auto with tagged
          | rewrite (filter_tagged_other (str "title") u l)
              by (first [repeat constructor | reflexivity])
          | rewrite (filter_tagged_other (str "sub-title") u l)
              by (first [auto with tagged | reflexivity])
          | rewrite (filter_tagged_other (str "desc") u l)
              by (first [auto with tagged | reflexivity])
          | rewrite (filter_tagged_other (str "category") u l)
              by (first [auto with tagged | reflexivity])
          | rewrite (filter_tagged_other (str "url") u l)
              by (first [auto with tagged | reflexivity])
          | rewrite (filter_tagged_other (str "star-rating") u l)
              by (first [auto with tagged | reflexivity]) ]
    end;
  cbn [app]; rewrite ?app_nil_r.

Lemma findall_url title_text sfr_xml t a x :
  findall (Elem t a x (program_children title_text sfr_xml)) (str "url")
  = url_elements (strip title_text) sfr_xml.
Proof. filter_children. reflexivity. Qed.

Lemma findall_category title_text sfr_xml t a x :
  findall (Elem t a x (program_children title_text sfr_xml)) (str "category")
  = category_elements sfr_xml.
Proof. filter_children. reflexivity. Qed.

(** What [_parse_program_xmltv] returns when it returns. *)
Lemma parse_program_ok (sfr_xml p : Element) (evs evs' : list event) :
  _parse_program_xmltv sfr_xml evs = (Ok p, evs') ->
  exists sfr_channel start stop title_text,
    get sfr_xml (str "channel") = Some sfr_channel
    /\ findtext sfr_xml (str "title") = Some title_text
    /\ p = Elem (str "programme")
             [(str "channel", _sfr_to_xmltv_id sfr_channel);
              (str "start", start); (str "stop", stop)]
             None (program_children title_text sfr_xml)
    /\ evs' = evs ++ category_warnings sfr_xml.
Proof.
  rewrite parse_program_transformed. unfold transform_events, transformed.
  destruct (get sfr_xml (str "channel")) as [c|]; [|discriminate].
  destruct (get sfr_xml (str "start")) as [s|]; [|discriminate].
  destruct (get sfr_xml (str "stop")) as [e|]; [|discriminate].
  destruct (findtext sfr_xml (str "title")) as [t|]; [|discriminate].
  intros [= <- <-]. now exists c, s, e, t.
Qed.

Lemma dict_get_None {V} (key : pystr) (d : list (pystr * V)) :
  dict_get key d = None <-> ~ In key (map fst d).
Proof.
  induction d as [|[k v] d IH]; cbn [dict_get map fst In]; [tauto|].
  unfold str_eqb. case_bool_decide as E.
  - split; [discriminate | intros H; exfalso; apply H; now left].
  - rewrite IH. tauto.
Qed.

(** Each of the nine categories of the table is translated by its entry. *)
Lemma etsi_table_lookup :
  Forall (fun kv => dict_get (fst kv) _ETSI_PROGRAM_CATEGORIES = Some (snd kv))
    _ETSI_PROGRAM_CATEGORIES.
Proof. repeat constructor. Qed.

(** C7. For a record whose trimmed category is not empty, and that the
    transformer accepts: the category is looked up in the table of nine
    entries; a string outside the table has no equivalent and is warned
    about, a string of the table is not; the equivalent is emitted only
    when it exists and is not empty, then the category itself in French,
    then the trimmed meta-category in French when it is not empty and
    differs from the category: three category elements at most. *)
Theorem categories_of_program (sfr_xml p : Element) (evs evs' : list event) :
  nonempty (category_of sfr_xml) = true ->
  _parse_program_xmltv sfr_xml evs = (Ok p, evs') ->
  let category := category_of sfr_xml in
  let meta_category := meta_category_of sfr_xml in
  let etsi_category := dict_get category _ETSI_PROGRAM_CATEGORIES in
  length _ETSI_PROGRAM_CATEGORIES = 9%nat
  /\ Forall (fun kv => dict_get (fst kv) _ETSI_PROGRAM_CATEGORIES = Some (snd kv))
       _ETSI_PROGRAM_CATEGORIES
  /\ (etsi_category = None <-> ~ In category (map fst _ETSI_PROGRAM_CATEGORIES))
  /\ evs' = evs ++ match etsi_category with
                   | None => [Logged (no_etsi_equivalent category)]
                   | Some _ => []
                   end
  /\ findall p (str "category")
     = match etsi_category with
       | Some etsi => if nonempty etsi then [text_element (str "category") [] etsi] else []
       | None => []
       end
       ++ [text_element (str "category") lang_fr category]
       ++ (if nonempty meta_category && negb (str_eqb meta_category category)
           then [text_element (str "category") lang_fr meta_category] else [])
  /\ (length (findall p (str "category")) <= 3)%nat.
Proof.
  intros Hc Hp. cbv zeta.
  destruct (parse_program_ok _ _ _ _ Hp) as (c & s & e & t & _ & _ & -> & ->).
  split; [reflexivity|]. split; [exact etsi_table_lookup|].
  split; [apply dict_get_None|].
  split; [unfold category_warnings; now rewrite Hc|].
  rewrite findall_category. unfold category_elements, optional_element. rewrite Hc.
  split; [reflexivity|].
  destruct (dict_get _ _) as [etsi|]; [destruct (nonempty etsi)|];
    destruct (_ && _); cbn; lia.
Qed.

(** C6, as amended. For a record the transformer accepts, the [url]
    elements of the result are: when the trimmed identifier is not empty,
    one element, made of the base path, the trimmed title and the trimmed
    identifier; when the identifier is absent or empty once trimmed, none. *)
Theorem url_of_program (sfr_xml p : Element) (evs evs' : list event) :
  _parse_program_xmltv sfr_xml evs = (Ok p, evs') ->
  exists title_text,
    findtext sfr_xml (str "title") = Some title_text
    /\ findall p (str "url")
       = (if nonempty (program_id_of sfr_xml)
          then [text_element (str "url") []
                  (_PROGRAM_URL ++ str "/" ++ strip title_text ++ str "-"
                   ++ program_id_of sfr_xml)]
          else [])
    /\ (get sfr_xml (str "id") = None -> findall p (str "url") = []).
Proof.
  intros Hp.
  destruct (parse_program_ok _ _ _ _ Hp) as (c & s & e & t & _ & Ht & -> & _).
  exists t. split; [exact Ht|]. rewrite findall_url. unfold url_elements.
  split; [reflexivity|].
  intros Hid. unfold program_id_of, get_default. now rewrite Hid.
Qed.

(** C6, the claim as stated fails: the title [" Journal "] goes into the
    address trimmed. *)
Lemma url_title_is_trimmed :
  exists p,
    run (_parse_program_xmltv padded_title) = (Ok p, [])
    /\ findtext padded_title (str "title") = Some (str " Journal ")
    /\ findall p (str "url")
       = [text_element (str "url") [] (str "http://tv.sfr.fr/prog/Journal-42")]
    /\ findall p (str "url") <> url_of_untrimmed_title padded_title.
Proof.
  eexists. split; [reflexivity|]. split; [reflexivity|]. split; [reflexivity|].
  vm_compute. discriminate.
Qed.

(** ** Document assembler *)

Lemma clamp_days_effective (days offset : Z) (evs : list event) :
  exists evs', clamp_days days offset evs = (Ok (effective_days days offset), evs').
Proof.
  unfold clamp_days, effective_days.
  destruct (days + offset >? _MAX_DAYS); eexists; reflexivity.
Qed.

(** A loop one of whose iterations raises whatever it starts from does not
    return. *)
Lemma for_each_raises {A S} (body : S -> A -> M S) (xs : list A) (x : A) :
  In x xs ->
  (forall s l, exists e l', body s x l = (Raise e, l')) ->
  forall s l, exists e l', for_each body xs s l = (Raise e, l').
Proof.
  intros Hin Hx. induction xs as [|y xs IH]; [destruct Hin|].
  intros s l. cbn [for_each]. unfold bind.
  destruct (body s y l) as [[s'|e] l'] eqn:E; [|eauto].
  destruct Hin as [->|Hin]; [|now apply IH].
  destruct (Hx s l) as (e & l'' & Hr). congruence.
Qed.

Lemma transformed_title_less (sfr_xml : Element) :
  findtext sfr_xml (str "title") = None -> exists e, transformed sfr_xml = Raise e.
Proof.
  intros Ht. unfold transformed. rewrite Ht.
  destruct (get sfr_xml (str "channel")); [|eauto].
  destruct (get sfr_xml (str "start")); [|eauto].
  destruct (get sfr_xml (str "stop")); eauto.
Qed.

Lemma grab_program_title_less (env : Env) xmltv_ids start stop acc r c evs :
  get r (str "channel") = Some c ->
  In (_sfr_to_xmltv_id c) xmltv_ids ->
  findtext r (str "title") = None ->
  exists e evs', grab_program env xmltv_ids start stop acc r evs = (Raise e, evs').
Proof.
  intros Hc Hin Ht. unfold grab_program, bind, or_raise. rewrite Hc. unfold ret at 1.
  rewrite bool_decide_eq_true_2 by (now apply list_elem_of_In). cbn [negb].
  rewrite parse_program_transformed.
  destruct (transformed_title_less r Ht) as [e ->]. eauto.
Qed.

(** C10. A record without a title makes the transformer raise, without any
    event: with its three attributes present the exception is the
    [AttributeError] of [None.strip()].  When such a record, on a selected
    channel, is in the feed of one of the dates fetched, [_get_xmltv_data]
    raises too: no document is returned. *)
Theorem title_less_record_aborts (self : SFRXMLTVGrabber) (env : Env)
    (xmltv_ids : list pystr) (days offset : Z) (evs : list event)
    (d : date) (feed r : Element) (c : pystr) :
  In d (sfr_fetch_dates env (effective_days days offset) offset) ->
  urlopen env d = Some feed ->
  In r (iter_tag feed (str "programme")) ->
  get r (str "channel") = Some c ->
  In (_sfr_to_xmltv_id c) xmltv_ids ->
  findtext r (str "title") = None ->
  (forall evs0, exists e, _parse_program_xmltv r evs0 = (Raise e, evs0))
  /\ (forall evs0, get r (str "start") <> None -> get r (str "stop") <> None ->
        _parse_program_xmltv r evs0 = (Raise AttributeError, evs0))
  /\ exists e evs', _get_xmltv_data self env xmltv_ids days offset evs = (Raise e, evs').
Proof.
  intros Hd Hfeed Hr Hc Hin Ht. split; [|split].
  - intros evs0. rewrite parse_program_transformed. unfold transform_events.
    destruct (transformed_title_less r Ht) as [e ->]. exists e. now rewrite app_nil_r.
  - intros evs0 Hs He. rewrite parse_program_transformed.
    unfold transform_events, transformed. rewrite Hc, Ht.
    destruct (get r (str "start")); [|congruence].
    destruct (get r (str "stop")); [|congruence].
    now rewrite app_nil_r.
  - unfold _get_xmltv_data, bind.
    destruct (clamp_days_effective days offset evs) as [evs1 ->].
    rewrite assemble_cases.
    destruct (window_in_range env (effective_days days offset) offset); [|eauto].
    unfold bind.
    destruct (for_each_raises (grab_date env xmltv_ids (window_start env offset)
                (window_stop env (effective_days days offset) offset))
                _ d Hd) with (s := Grabbed [] ∅) (l := evs1) as (e & evs2 & ->); [|eauto].
    intros s l. unfold grab_date, bind, _get_programs, or_raise. rewrite Hfeed.
    unfold ret at 1.
    apply (for_each_raises _ _ r Hr).
    intros s0 l0. now apply grab_program_title_less with (c := c).
Qed.

Lemma bind_ok {A B} (m : M A) (f : A -> M B) (l l' : list event) (b : B) :
  bind m f l = (Ok b, l') -> exists a l1, m l = (Ok a, l1) /\ f a l1 = (Ok b, l').
Proof.
  unfold bind. destruct (m l) as [[a|e] l1]; [eauto | discriminate].
Qed.

(** A property the body keeps holds when the loop returns. *)
Lemma for_each_invariant {A S} (P : S -> Prop) (body : S -> A -> M S) (xs : list A) :
  (forall s x l s' l', P s -> body s x l = (Ok s', l') -> P s') ->
  forall s l s' l', P s -> for_each body xs s l = (Ok s', l') -> P s'.
Proof.
  intros Hbody. induction xs as [|x xs IH]; intros s l s' l' Hs Hrun.
  - cbn in Hrun. unfold ret in Hrun. congruence.
  - cbn [for_each] in Hrun. apply bind_ok in Hrun as (s1 & l1 & H1 & H2).
    eapply IH; [|exact H2]. eapply Hbody; eauto.
Qed.

Lemma get_first_attribute (t key v : pystr) a x cs :
  get (Elem t ((key, v) :: a) x cs) key = Some v.
Proof.
  unfold get, attrib. cbn [dict_get]. unfold str_eqb.
  now rewrite bool_decide_eq_true_2.
Qed.

Lemma grab_program_ok (env : Env) xmltv_ids start stop acc r evs acc' evs' :
  grabbed_ok acc ->
  grab_program env xmltv_ids start stop acc r evs = (Ok acc', evs') ->
  grabbed_ok acc'.
Proof.
  intros Hacc. unfold grab_program. intros H.
  apply bind_ok in H as (c & l1 & _ & H).
  destruct (negb _); [unfold ret in H; congruence|].
  apply bind_ok in H as (p0 & l2 & _ & H).
  apply bind_ok in H as (t0 & l3 & _ & H).
  apply bind_ok in H as (t1 & l4 & _ & H).
  destruct (outside_period _ _ _ _); [unfold ret in H; congruence|].
  apply bind_ok in H as (p & l5 & Hp & H).
  apply bind_ok in H as (x & l6 & Hx & H).
  unfold ret in H. injection H as <- <-.
  destruct (parse_program_ok _ _ _ _ Hp) as (c' & s & e & t & _ & _ & -> & _).
  rewrite get_first_attribute in Hx. unfold or_raise, ret in Hx. injection Hx as <- _.
  destruct Hacc as [Hids Htags]. split; cbn [programs_xml valid_xmltv_ids].
  - intros y. rewrite elem_of_union, elem_of_singleton, Hids. split.
    + intros [->|(q & Hq & Hy)].
      * eexists. split; [apply in_or_app; right; left; reflexivity|].
        apply get_first_attribute.
      * exists q. split; [apply in_or_app; now left | exact Hy].
    + intros (q & Hq & Hy). apply in_app_or in Hq as [Hq|[<-|[]]].
      * right. eauto.
      * left. rewrite get_first_attribute in Hy. congruence.
  - apply Forall_app. split; [exact Htags | repeat constructor].
Qed.

Lemma grab_date_ok (env : Env) xmltv_ids start stop acc d evs acc' evs' :
  grabbed_ok acc ->
  grab_date env xmltv_ids start stop acc d evs = (Ok acc', evs') ->
  grabbed_ok acc'.
Proof.
  intros Hacc H. unfold grab_date in H.
  apply bind_ok in H as (feed & l1 & _ & H).
  eapply for_each_invariant; [|exact Hacc|exact H].
  intros s x l s' l' Hs Hb. eapply grab_program_ok; eauto.
Qed.

Lemma extend_nil (e : Element) : extend e [] = e.
Proof. destruct e. cbn. now rewrite app_nil_r. Qed.

Lemma extend_append (e c : Element) (cs : list Element) :
  extend (append e c) cs = extend e (c :: cs).
Proof. destruct e. cbn. now rewrite <- app_assoc. Qed.

(** The channel elements appended carry the identifiers given, in order. *)
Lemma append_channels_ok (self : SFRXMLTVGrabber) (ids : list pystr) :
  forall root evs root' evs',
    append_channels self root ids evs = (Ok root', evs') ->
    exists cs, root' = extend root cs
               /\ map (fun c => get c (str "id")) cs = map Some ids
               /\ Forall (fun e => tag e = str "channel") cs.
Proof.
  unfold append_channels. induction ids as [|x ids IH]; intros root evs root' evs' H.
  - cbn in H. unfold ret in H. injection H as <- _.
    exists []. now rewrite extend_nil.
  - cbn [for_each] in H. apply bind_ok in H as (root1 & l1 & H1 & H2).
    apply bind_ok in H1 as (ch & l2 & Hch & H1). unfold ret in H1. injection H1 as <- <-.
    unfold _parse_channel_xmltv in Hch.
    apply bind_ok in Hch as (info & l3 & _ & Hch). unfold ret in Hch. injection Hch as <- _.
    destruct (IH _ _ _ _ H2) as (cs & -> & Hids & Htags).
    eexists (_ :: cs). split; [apply extend_append|]. split.
    + cbn [map]. now rewrite Hids.
    + constructor; [reflexivity | exact Htags].
Qed.

Lemma root_element_children (self : SFRXMLTVGrabber) : children (root_element self) = [].
Proof.
  unfold root_element. destruct (_generator self), (_generator_url self); reflexivity.
Qed.

(** C9. In a document [_get_xmltv_data] returns, the identifiers of the
    [channel] elements are those of the channels of the [programme]
    elements, the records kept: an identifier has a channel element exactly
    when one program at least is kept for it, and has only one. *)
Theorem channels_of_document (self : SFRXMLTVGrabber) (env : Env) (xmltv_ids : list pystr)
    (days offset : Z) (evs evs' : list event) (doc : Element) :
  _get_xmltv_data self env xmltv_ids days offset evs = (Ok doc, evs') ->
  (forall x,
     (exists c, In c (findall doc (str "channel")) /\ get c (str "id") = Some x)
     <-> (exists p, In p (findall doc (str "programme"))
                    /\ get p (str "channel") = Some x))
  /\ NoDup (map (fun c => get c (str "id")) (findall doc (str "channel"))).
Proof.
  intros H. unfold _get_xmltv_data in H.
  apply bind_ok in H as (days' & l1 & _ & H). rewrite assemble_cases in H.
  destruct (window_in_range env days' offset); [|discriminate].
  apply bind_ok in H as (acc & l2 & Hacc & H).
  apply bind_ok in H as (root' & l3 & Hroot & H).
  unfold ret in H. injection H as <- _.
  assert (Hok : grabbed_ok acc).
  { eapply for_each_invariant; [|split|exact Hacc].
    - intros s d l s' l' Hs Hb. eapply grab_date_ok; eauto.
    - intros x. cbn [valid_xmltv_ids programs_xml]. split; [set_solver|].
      intros (p & [] & _).
    - constructor. }
  destruct Hok as [Hids Htags].
  destruct (append_channels_ok _ _ _ _ _ _ Hroot) as (cs & -> & Hcs & Hctags).
  pose proof (root_element_children self) as Hnil.
  destruct (root_element self) as [t a x c0]. cbn [children] in Hnil. subst c0.
  assert (Ec : findall (extend (extend (Elem t a x []) cs) (programs_xml acc))
                 (str "channel") = cs).
  { unfold findall, extend, children. cbn [app]. rewrite List.filter_app.
    rewrite (filter_tagged_same _ cs) by exact Hctags.
    rewrite (filter_tagged_other (str "programme")) by (first [exact Htags | reflexivity]).
    apply app_nil_r. }
  assert (Ep : findall (extend (extend (Elem t a x []) cs) (programs_xml acc))
                 (str "programme") = programs_xml acc).
  { unfold findall, extend, children. cbn [app]. rewrite List.filter_app.
    rewrite (filter_tagged_same _ (programs_xml acc)) by exact Htags.
    now rewrite (filter_tagged_other (str "channel")) by (first [exact Hctags | reflexivity]). }
  rewrite Ec, Ep. split.
  - intros y. rewrite <- Hids, <- elem_of_elements, list_elem_of_In. split.
    + intros (c & Hc & Hy).
      apply (in_map (fun c => get c (str "id"))) in Hc. rewrite Hcs, Hy in Hc.
      apply in_map_iff in Hc as (z & [= ->] & Hz). exact Hz.
    + intros Hy. apply (in_map Some) in Hy. rewrite <- Hcs in Hy.
      apply in_map_iff in Hy as (c & Hc & Hin). eauto.
  - rewrite Hcs. apply NoDup_fmap_2; [intros u v [=]; assumption|].
    apply NoDup_elements.
Qed.

(** The test of line 247 at the three boundaries: a program that stops when
    the window starts is not skipped, one that starts when the window stops
    is, one that starts when the window starts is not. *)
Lemma outside_period_boundaries (program_start program_stop start stop : datetime) :
  (instant program_stop = instant start -> instant program_start < instant stop ->
   outside_period program_start program_stop start stop = false)
  /\ (instant program_start = instant stop ->
      outside_period program_start program_stop start stop = true)
  /\ (instant program_start = instant start -> instant start < instant program_stop ->
      instant start < instant stop ->
      outside_period program_start program_stop start stop = false).
Proof.
  unfold outside_period, dt_lt, dt_ge. repeat split.
  - intros E H. apply orb_false_iff. split; [apply Z.ltb_ge | apply Z.leb_gt]; lia.
  - intros E. apply orb_true_iff. right. apply Z.leb_le. lia.
  - intros E H1 H2. apply orb_false_iff. split; [apply Z.ltb_ge | apply Z.leb_gt]; lia.
Qed.

(** C1. On 2024-01-01 in Paris the window of one day starts at 00:00 +0100.
    The program of the first channel that stops at that instant is in the
    document, before the one that starts at it; the program that starts
    when the window stops is not. *)
Theorem program_stopping_at_window_start_is_kept :
  let env := paris_2024 no_file in
  exists doc,
    run (_get_xmltv_data grabber_2024 env [str "chan-a.tv.sfr.fr"] 1 0) = (Ok doc, [])
    /\ option_map instant (strptime env (str "20240101000000 +0100"))
       = Some (instant (window_start env 0))
    /\ option_map instant (strptime env (str "20240102000000 +0100"))
       = Some (instant (window_stop env 1 0))
    /\ programme_times doc
       = [ (Some (str "chan-a.tv.sfr.fr"),
            Some (str "20231231220000 +0100"), Some (str "20240101000000 +0100"));
           (Some (str "chan-a.tv.sfr.fr"),
            Some (str "20240101000000 +0100"), Some (str "20240101030000 +0100"));
           (Some (str "chan-a.tv.sfr.fr"),
            Some (str "20240101030000 +0100"), Some (str "20240101060000 +0100"));
           (Some (str "chan-a.tv.sfr.fr"),
            Some (str "20240101200000 +0100"), Some (str "20240101220000 +0100")) ].
Proof.
  cbv zeta. eexists. split; [vm_compute; reflexivity|].
  split; [reflexivity|]. split; reflexivity.
Qed.

(** The example of section 8: the program from 03:00 to 06:00 comes with
    the feed of the day before and is in the document once. *)
Example early_news_grabbed_once :
  sfr_fetch_dates (paris_2024 no_file) 1 0 = [ymd2ord 2023 12 31; ymd2ord 2024 1 1]
  /\ exists doc,
       run (_get_xmltv_data grabber_2024 (paris_2024 no_file) [str "chan-a.tv.sfr.fr"] 1 0)
       = (Ok doc, [])
       /\ List.filter
            (fun t => bool_decide (snd (fst t) = Some (str "20240101030000 +0100")))
            (programme_times doc)
          = [ (Some (str "chan-a.tv.sfr.fr"),
               Some (str "20240101030000 +0100"), Some (str "20240101060000 +0100")) ].
Proof.
  split; [reflexivity|]. eexists. split; [vm_compute; reflexivity | reflexivity].
Qed.

(** ** Main execution path *)

(** Without a configuration file the process logs an error and exits with
    status 1 before any document is asked for. *)
Lemma missing_configuration_is_fatal :
  run (_main (paris_2024 no_file) default_args)
  = (Raise (SystemExit 1), [Logged need_configure]).
Proof. reflexivity. Qed.

(** C5. With a configuration file that selects no channel the process logs
    an error but goes on: it writes a document, without any channel or
    program, and ends with status 0. *)
Theorem empty_configuration_is_not_fatal :
  let env := paris_2024 (only_conf conf_without_channel) in
  let outcome := run (_main env default_args) in
  isfile env conf_path = true
  /\ run (_read_configuration env conf_path) = (Ok [], [])
  /\ fst outcome = Ok tt
  /\ exit_status (fst outcome) = 0
  /\ wrote_document (snd outcome) = true
  /\ exists doc,
       snd outcome = [Logged (empty_configuration conf_path); Wrote _DEFAULT_OUTPUT (Xml doc)]
       /\ children doc = [].
Proof.
  cbv zeta. repeat (split; [reflexivity|]).
  eexists. split; [vm_compute; reflexivity | reflexivity].
Qed.

(** The grab with one channel selected. *)
Example grab_first_channel :
  let outcome := run (_main (paris_2024 (only_conf conf_chan_a)) default_args) in
  exit_status (fst outcome) = 0
  /\ exists doc,
       snd outcome = [Wrote _DEFAULT_OUTPUT (Xml doc)]
       /\ channel_ids doc = [Some (str "chan-a.tv.sfr.fr")].
Proof.
  cbv zeta. split; [reflexivity|].
  eexists. split; [vm_compute; reflexivity | reflexivity].
Qed.

(** A record without a title ends the process with status 1 and without a
    document. *)
Example title_less_record_ends_the_grab :
  let env := world (ymd2ord 2024 1 1) europe_paris feeds_title_less (only_conf conf_chan_a) in
  let outcome := run (_main env default_args) in
  outcome = (Raise AttributeError, [])
  /\ exit_status (fst outcome) = 1
  /\ wrote_document (snd outcome) = false.
Proof. cbv zeta. repeat split; reflexivity. Qed.

(** ** Runs on the concrete world *)





Lemma clamp_days_beyond_lookahead_witness :
  (7 + 10 > 14 /\ 0 <= 7 <= 14)
  /\ clamp_days 10 7 [] = (Ok (14 - 7), [] ++ [Logged too_many_days]).
Proof.
  split; [lia|]. apply (clamp_days_beyond_lookahead 10 7 []); lia.
Defined.

Lemma categories_of_program_witness :
  exists p evs',
    nonempty (category_of categorised) = true
    /\ _parse_program_xmltv categorised [] = (Ok p, evs')
    /\ findall p (str "category")
       = [text_element (str "category") [] (str "Sports");
          text_element (str "category") lang_fr (str "Sport");
          text_element (str "category") lang_fr (str "Direct")]
    /\ (length (findall p (str "category")) <= 3)%nat.
Proof.
  eexists. eexists. split; [reflexivity|]. split; [vm_compute; reflexivity|].
  split; [reflexivity|].
  apply (categories_of_program categorised _ [] []); reflexivity.
Defined.

Lemma url_of_program_witness :
  exists p evs' title_text,
    _parse_program_xmltv padded_title [] = (Ok p, evs')
    /\ findtext padded_title (str "title") = Some title_text
    /\ findall p (str "url")
       = (if nonempty (program_id_of padded_title)
          then [text_element (str "url") []
                  (_PROGRAM_URL ++ str "/" ++ strip title_text ++ str "-"
                   ++ program_id_of padded_title)]
          else []).
Proof.
  eexists. eexists.
  assert (H : _parse_program_xmltv padded_title [] = (Ok _, _))
    by (vm_compute; reflexivity).
  destruct (url_of_program padded_title _ [] _ H) as (t & Ht & Hu & _).
  exists t. split; [exact H|]. split; [exact Ht | exact Hu].
Defined.

(** The third channel is asked for and has no program: the document has
    one channel element, the one of the channel with programs. *)
Lemma channels_of_document_witness :
  exists doc evs',
    _get_xmltv_data grabber_2024 (paris_2024 no_file)
      [str "chan-a.tv.sfr.fr"; str "chan-c.tv.sfr.fr"] 1 0 [] = (Ok doc, evs')
    /\ channel_ids doc = [Some (str "chan-a.tv.sfr.fr")]
    /\ NoDup (map (fun c => get c (str "id")) (findall doc (str "channel"))).
Proof.
  eexists. eexists. split; [vm_compute; reflexivity|]. split; [reflexivity|].
  apply (channels_of_document grabber_2024 (paris_2024 no_file)
           [str "chan-a.tv.sfr.fr"; str "chan-c.tv.sfr.fr"] 1 0 [] []).
  vm_compute; reflexivity.
Defined.

Lemma title_less_record_aborts_witness :
  let env := world (ymd2ord 2024 1 1) europe_paris feeds_title_less no_file in
  In (ymd2ord 2023 12 31) (sfr_fetch_dates env (effective_days 1 0) 0)
  /\ urlopen env (ymd2ord 2023 12 31) = Some feed_title_less
  /\ In title_less (iter_tag feed_title_less (str "programme"))
  /\ get title_less (str "channel") = Some (str "chan_a")
  /\ In (_sfr_to_xmltv_id (str "chan_a")) [str "chan-a.tv.sfr.fr"]
  /\ findtext title_less (str "title") = None
  /\ exists e evs',
       _get_xmltv_data grabber_2024 env [str "chan-a.tv.sfr.fr"] 1 0 [] = (Raise e, evs').
Proof.
  cbv zeta.
  assert (H1 : In (ymd2ord 2023 12 31)
                 (sfr_fetch_dates
                    (world (ymd2ord 2024 1 1) europe_paris feeds_title_less no_file)
                    (effective_days 1 0) 0)) by (left; reflexivity).
  assert (H3 : In title_less (iter_tag feed_title_less (str "programme")))
    by (right; left; reflexivity).
  assert (H5 : In (_sfr_to_xmltv_id (str "chan_a")) [str "chan-a.tv.sfr.fr"])
    by (left; reflexivity).
  repeat (split; [first [assumption | reflexivity]|]).
  apply (title_less_record_aborts grabber_2024 _ _ 1 0 [] _ feed_title_less title_less
           (str "chan_a") H1 eq_refl H3 eq_refl H5 eq_refl).
Defined.

(** * Further properties *)

(** ** Identifier mapping: collisions *)

Lemma sfr_to_xmltv_id_char_map (sfr_id : pystr) :
  _sfr_to_xmltv_id sfr_id = flat_map map_char sfr_id ++ str ".tv.sfr.fr".
Proof.
  unfold _sfr_to_xmltv_id. f_equal.
  change (str "+") with [43%N]. change (str "_") with [95%N].
  rewrite !replace_one_char.
  induction sfr_id as [|c s IH]; [reflexivity|].
  cbn [flat_map]. rewrite flat_map_app, IH. f_equal.
  unfold map_char. destruct (c =? 95)%N; [reflexivity|].
  cbn [flat_map]. apply app_nil_r.
Qed.

Lemma contains_cons_false (c a : N) (s : pystr) :
  contains c (a :: s) = false <-> c <> a /\ contains c s = false.
Proof.
  unfold contains. cbn [existsb]. rewrite orb_false_iff, N.eqb_neq. tauto.
Qed.

Lemma map_char_cases (c : N) :
  (c = 95%N /\ map_char c = [45%N])
  \/ (c = 43%N /\ map_char c = [80%N; 76%N; 85%N; 83%N])
  \/ (c <> 95%N /\ c <> 43%N /\ map_char c = [c]).
Proof.
  unfold map_char.
  destruct (N.eqb_spec c 95) as [->|N1]; [now left|].
  destruct (N.eqb_spec c 43) as [->|N2]; [right; now left|].
  right. right. now repeat split.
Qed.

Lemma flat_map_char_injective (x y : pystr) :
  contains 45 x = false -> contains 80 x = false ->
  contains 45 y = false -> contains 80 y = false ->
  flat_map map_char x = flat_map map_char y -> x = y.
Proof.
  revert y. induction x as [|a x IH]; intros [|b y] Hx1 Hx2 Hy1 Hy2 E.
  - reflexivity.
  - exfalso. cbn [flat_map] in E.
    destruct (map_char_cases b) as [[_ Eb]|[[_ Eb]|(_ & _ & Eb)]];
      rewrite Eb in E; discriminate.
  - exfalso. cbn [flat_map] in E.
    destruct (map_char_cases a) as [[_ Ea]|[[_ Ea]|(_ & _ & Ea)]];
      rewrite Ea in E; discriminate.
  - apply contains_cons_false in Hx1 as [Ha1 Hx1], Hx2 as [Ha2 Hx2].
    apply contains_cons_false in Hy1 as [Hb1 Hy1], Hy2 as [Hb2 Hy2].
    cbn [flat_map] in E.
    destruct (map_char_cases a) as [[-> Ea]|[[-> Ea]|(Na & Na' & Ea)]];
      destruct (map_char_cases b) as [[-> Eb]|[[-> Eb]|(Nb & Nb' & Eb)]];
      rewrite ?Ea, ?Eb in E; cbn [app] in E;
      try (injection E as E; f_equal; now apply IH);
      try (injection E as E0 E; exfalso; congruence).
    injection E as E0 E. subst b. f_equal. now apply IH.
Qed.

(** X1. Two vendor identifiers without a hyphen and without a capital P are
    given the same output identifier only when they are the same. *)
Theorem sfr_to_xmltv_id_injective (x y : pystr) :
  unambiguous_id x = true -> unambiguous_id y = true ->
  _sfr_to_xmltv_id x = _sfr_to_xmltv_id y -> x = y.
Proof.
  unfold unambiguous_id. intros Hx Hy E.
  apply andb_true_iff in Hx as [Hx1 Hx2], Hy as [Hy1 Hy2].
  apply negb_true_iff in Hx1, Hx2, Hy1, Hy2.
  rewrite !sfr_to_xmltv_id_char_map in E. apply app_inv_tail in E.
  now apply flat_map_char_injective.
Qed.

Lemma sfr_to_xmltv_id_injective_witness :
  unambiguous_id (str "canal+_sport") = true
  /\ unambiguous_id (str "canal+_sport") = true
  /\ (_sfr_to_xmltv_id (str "canal+_sport") = _sfr_to_xmltv_id (str "canal+_sport")
      -> str "canal+_sport" = str "canal+_sport").
Proof.
  split; [reflexivity|]. split; [reflexivity|].
  apply (sfr_to_xmltv_id_injective (str "canal+_sport") (str "canal+_sport"));
    reflexivity.
Defined.

(** Without that restriction identifiers collide. *)
Example sfr_to_xmltv_id_collisions :
  _sfr_to_xmltv_id (str "tf1_hd") = _sfr_to_xmltv_id (str "tf1-hd")
  /\ _sfr_to_xmltv_id (str "canal+") = _sfr_to_xmltv_id (str "canalPLUS").
Proof. split; reflexivity. Qed.

(** ** Configuration file *)

Lemma lines_from_line (line cur rest : pystr) :
  contains newline line = false ->
  lines_from cur (line ++ newline :: rest) = (cur ++ line ++ [newline]) :: lines_from [] rest.
Proof.
  revert cur. induction line as [|c line IH]; intros cur Hl.
  - cbn [app lines_from]. now rewrite N.eqb_refl.
  - apply contains_cons_false in Hl as [Hc Hl].
    cbn [app lines_from].
    destruct (N.eqb_spec c newline) as [E|_]; [congruence|].
    rewrite IH by exact Hl. now rewrite <- app_assoc.
Qed.

Lemma readlines_of_lines (ls : list pystr) :
  Forall (fun l => contains newline l = false) ls ->
  readlines (concat (map (fun l => l ++ [newline]) ls)) = map (fun l => l ++ [newline]) ls.
Proof.
  unfold readlines. induction 1 as [|l ls Hl _ IH]; [reflexivity|].
  cbn [map concat]. rewrite <- app_assoc. cbn [app].
  rewrite lines_from_line by exact Hl. now rewrite IH.
Qed.

Lemma span_length_app_stop (p : N -> bool) (s : pystr) (c : N) (rest : pystr) :
  forallb p s = true -> p c = false -> span_length p (s ++ c :: rest) = length s.
Proof.
  intros Hs Hc. induction s as [|a s IH]; cbn [app span_length length].
  - now rewrite Hc.
  - cbn [forallb] in Hs. apply andb_true_iff in Hs as [Ha Hs]. now rewrite Ha, IH.
Qed.

Lemma contains_false_forallb (c : N) (s : pystr) :
  contains c s = false -> forallb (fun x => negb (x =? c)%N) s = true.
Proof.
  induction s as [|a s IH]; [reflexivity|].
  intros H. apply contains_cons_false in H as [Ha Hs].
  cbn [forallb]. rewrite IH by exact Hs.
  destruct (N.eqb_spec a c); [congruence | reflexivity].
Qed.

(** A line [_write_configuration] writes is read back as its identifier. *)
Lemma match_channel_written (xmltv_id : pystr) :
  plain_id xmltv_id = true ->
  match_channel ((str "channel=" ++ xmltv_id) ++ [newline]) = Some xmltv_id.
Proof.
  unfold plain_id. destruct xmltv_id as [|c s]; [discriminate|].
  intros H. apply andb_true_iff in H as [H _]. apply andb_true_iff in H as [Hc Hn].
  apply negb_true_iff in Hc, Hn.
  unfold match_channel.
  change ((str "channel=" ++ c :: s) ++ [newline])
    with (str "channel" ++ 61%N :: (c :: s) ++ [newline]).
  change (lstrip (str "channel" ++ 61%N :: (c :: s) ++ [newline]))
    with (str "channel" ++ 61%N :: (c :: s) ++ [newline]).
  change (startswith (str "channel") (str "channel" ++ 61%N :: (c :: s) ++ [newline]))
    with true.
  change (skipn 7 (str "channel" ++ 61%N :: (c :: s) ++ [newline]))
    with (61%N :: (c :: s) ++ [newline]).
  change (lstrip (61%N :: (c :: s) ++ [newline])) with (61%N :: (c :: s) ++ [newline]).
  cbv beta iota. rewrite N.eqb_refl.
  cbn [app span_length]. rewrite Hc. cbn [greedy skipn].
  unfold match_group.
  change (c :: s ++ [newline]) with ((c :: s) ++ newline :: []).
  rewrite span_length_app_stop;
    [|now apply contains_false_forallb | now rewrite N.eqb_refl].
  cbn [greedy length Nat.ltb Nat.leb andb].
  change (S (length s)) with (length (c :: s)).
  rewrite skipn_app, skipn_all, Nat.sub_diag, firstn_app, firstn_all, Nat.sub_diag.
  cbn [app skipn firstn forallb]. now rewrite app_nil_r.
Qed.

(** X2. What [_write_configuration] writes, [_read_configuration] reads
    back.  Where the file cannot be written, [_write_configuration] raises
    [OSError] and writes nothing.  Where it can, for identifiers that are
    not empty, do not start with white space and hold no line end, the list
    read from the file written is the list given, in order and with its
    repetitions, and nothing is logged. *)
Theorem configuration_round_trip (writer : Env) (xmltv_ids : list pystr)
    (config_file : pystr) (evs0 : list event) :
  Forall (fun xmltv_id => plain_id xmltv_id = true) xmltv_ids ->
  (can_write writer config_file = false ->
   _write_configuration writer xmltv_ids config_file evs0 = (Raise OSError, evs0))
  /\ (can_write writer config_file = true ->
      exists config,
        _write_configuration writer xmltv_ids config_file evs0
        = (Ok tt, evs0 ++ [Wrote config_file (Text config)])
        /\ forall reader evs,
             read_file reader config_file = Some config ->
             _read_configuration reader config_file evs = (Ok xmltv_ids, evs)).
Proof.
  intros Hids. unfold _write_configuration.
  split; intros ->; [reflexivity|].
  eexists. split; [reflexivity|].
  intros env evs Hread. unfold _read_configuration, bind, or_raise. rewrite Hread.
  unfold ret. f_equal. f_equal.
  assert (E : map (fun xmltv_id => str "channel=" ++ xmltv_id ++ [newline]) xmltv_ids
              = map (fun l => l ++ [newline]) (map (app (str "channel=")) xmltv_ids)).
  { rewrite map_map. apply map_ext. intros a. now rewrite app_assoc. }
  rewrite E, readlines_of_lines.
  2:{ apply List.Forall_map. eapply List.Forall_impl; [|exact Hids].
      intros a Ha. unfold plain_id in Ha. destruct a as [|c s]; [discriminate|].
      apply andb_true_iff in Ha as [Ha _]. apply andb_true_iff in Ha as [_ Ha].
      apply negb_true_iff in Ha. rewrite contains_app, Ha. reflexivity. }
  rewrite map_map.
  assert (G : forall acc,
             fold_left (fun ids line => match match_channel line with
                                        | Some g => ids ++ [g]
                                        | None => ids
                                        end)
               (map (fun x => (str "channel=" ++ x) ++ [newline]) xmltv_ids) acc
             = acc ++ xmltv_ids).
  { clear Hread E.
    induction Hids as [|a l Ha _ IH]; intros acc; [now rewrite app_nil_r|].
    cbn [map fold_left]. rewrite match_channel_written by exact Ha.
    rewrite IH, <- app_assoc. reflexivity. }
  apply G.
Qed.

Lemma configuration_round_trip_witness :
  Forall (fun xmltv_id => plain_id xmltv_id = true)
    [str "chan-a.tv.sfr.fr"; str "canalPLUS.tv.sfr.fr"]
  /\ can_write (paris_2024 no_file) conf_path = true
  /\ exists config,
       _write_configuration (paris_2024 no_file)
         [str "chan-a.tv.sfr.fr"; str "canalPLUS.tv.sfr.fr"] conf_path []
       = (Ok tt, [] ++ [Wrote conf_path (Text config)])
       /\ forall reader evs,
            read_file reader conf_path = Some config ->
            _read_configuration reader conf_path evs
            = (Ok [str "chan-a.tv.sfr.fr"; str "canalPLUS.tv.sfr.fr"], evs).
Proof.
  assert (H : Forall (fun xmltv_id => plain_id xmltv_id = true)
                [str "chan-a.tv.sfr.fr"; str "canalPLUS.tv.sfr.fr"])
    by (repeat constructor).
  split; [exact H|]. split; [reflexivity|].
  exact (proj2 (configuration_round_trip (paris_2024 no_file) _ conf_path [] H) eq_refl).
Defined.

Lemma greedy_Some {A} (f : nat -> option A) (n : nat) (a : A) :
  greedy f n = Some a -> exists m, (m <= n)%nat /\ f m = Some a.
Proof.
  induction n as [|n IH]; cbn [greedy].
  - destruct (f O) eqn:E; [|discriminate]. intros [= <-]. exists O. split; [lia | exact E].
  - destruct (f (S n)) eqn:E.
    + intros [= <-]. exists (S n). split; [lia | exact E].
    + intros H. destruct (IH H) as (m & Hm & Hf). exists m. split; [lia | exact Hf].
Qed.

Lemma firstn_span (p : N -> bool) (s : pystr) (m : nat) :
  (m <= span_length p s)%nat ->
  length (firstn m s) = m /\ forallb p (firstn m s) = true.
Proof.
  revert m. induction s as [|c s IH]; intros m Hm; cbn [span_length] in Hm.
  - assert (m = O) by lia. subst. now split.
  - destruct m as [|m]; [now split|].
    destruct (p c) eqn:Hc; [|lia]. cbn [firstn length forallb].
    destruct (IH m ltac:(lia)) as [H1 H2]. rewrite H1, Hc, H2. now split.
Qed.

Lemma match_channel_group (line g : pystr) :
  match_channel line = Some g -> g <> [] /\ contains newline g = false.
Proof.
  unfold match_channel. destruct (startswith _ _); [|discriminate].
  destruct (lstrip _) as [|c l2]; [discriminate|].
  destruct (c =? 61)%N; [|discriminate].
  intros H. apply greedy_Some in H as (k & _ & H).
  unfold match_group in H. apply greedy_Some in H as (m & Hm & H).
  destruct (Nat.ltb_spec 0 m) as [Hpos|]; [|discriminate].
  cbn [andb] in H. destruct (forallb isspace _); [|discriminate].
  injection H as <-.
  destruct (firstn_span _ _ _ Hm) as [Hlen Hall]. split.
  - intros E. rewrite E in Hlen. cbn in Hlen. lia.
  - clear - Hall. induction (firstn m (skipn k l2)) as [|a s IH]; [reflexivity|].
    cbn [forallb] in Hall. apply andb_true_iff in Hall as [Ha Hs].
    apply contains_cons_false. split; [|now apply IH].
    apply negb_true_iff, N.eqb_neq in Ha. congruence.
Qed.

(** X3. Whatever the configuration file holds, the identifiers
    [_read_configuration] returns are not empty and hold no line feed, and
    reading logs nothing; without the file it raises. *)
Theorem read_configuration_ids (env : Env) (config_file : pystr) (evs : list event) :
  match read_file env config_file with
  | Some _ =>
      exists xmltv_ids,
        _read_configuration env config_file evs = (Ok xmltv_ids, evs)
        /\ Forall (fun g => g <> [] /\ contains newline g = false) xmltv_ids
  | None => _read_configuration env config_file evs = (Raise OSError, evs)
  end.
Proof.
  unfold _read_configuration, bind, or_raise.
  destruct (read_file env config_file) as [config|]; [|reflexivity].
  eexists. split; [reflexivity|].
  assert (G : forall lines acc,
             Forall (fun g => g <> [] /\ contains newline g = false) acc ->
             Forall (fun g => g <> [] /\ contains newline g = false)
               (fold_left (fun ids line => match match_channel line with
                                           | Some g => ids ++ [g]
                                           | None => ids
                                           end) lines acc)).
  { induction lines as [|l lines IH]; intros acc Hacc; [exact Hacc|].
    cbn [fold_left]. apply IH.
    destruct (match_channel l) as [g|] eqn:E; [|exact Hacc].
    apply Forall_app. split; [exact Hacc|].
    constructor; [now apply match_channel_group with (line := l) | constructor]. }
  apply G. constructor.
Qed.

(** ** Record transformer: outcome and content *)

(** X4. The transformer returns exactly for the records that have the three
    attributes and a title: the result carries the mapped channel, the
    start and the stop as they are, and the trimmed title, and only
    category warnings are logged.  For any other record it raises
    [AttributeError] or [TypeError] and logs nothing; sub-title,
    description, category, identifier and rating may all be missing. *)
Theorem transformer_outcome (sfr_xml : Element) (evs : list event) :
  (forall c s e t,
     get sfr_xml (str "channel") = Some c -> get sfr_xml (str "start") = Some s ->
     get sfr_xml (str "stop") = Some e -> findtext sfr_xml (str "title") = Some t ->
     exists p,
       _parse_program_xmltv sfr_xml evs = (Ok p, evs ++ category_warnings sfr_xml)
       /\ tag p = str "programme"
       /\ attrib p = [(str "channel", _sfr_to_xmltv_id c); (str "start", s); (str "stop", e)]
       /\ findtext p (str "title") = Some (strip t))
  /\ (get sfr_xml (str "channel") = None \/ get sfr_xml (str "start") = None
      \/ get sfr_xml (str "stop") = None \/ findtext sfr_xml (str "title") = None ->
      exists e, _parse_program_xmltv sfr_xml evs = (Raise e, evs)
                /\ (e = AttributeError \/ e = TypeError)).
Proof.
  rewrite parse_program_transformed. unfold transform_events, transformed. split.
  - intros c s e t -> -> -> ->. eexists. split; [reflexivity|].
    repeat split.
  - intros H.
    destruct (get sfr_xml (str "channel")); [|rewrite app_nil_r; eauto].
    destruct (get sfr_xml (str "start")); [|rewrite app_nil_r; eauto].
    destruct (get sfr_xml (str "stop")); [|rewrite app_nil_r; eauto].
    destruct (findtext sfr_xml (str "title")); [|rewrite app_nil_r; eauto].
    destruct H as [H|[H|[H|H]]]; discriminate.
Qed.

(** X5. Apart from the title, the transformer emits no element without
    text: every sub-title, description, category and url element of a
    result has a text that is not empty, and a rating element holds one
    value element whose text is not empty. *)
Theorem transformer_emits_no_empty_element (sfr_xml p c : Element) (evs evs' : list event) :
  _parse_program_xmltv sfr_xml evs = (Ok p, evs') ->
  In c (children p) -> tag c <> str "title" ->
  (exists x, text c = Some x /\ nonempty x = true /\ children c = [])
  \/ (tag c = str "star-rating" /\ text c = None
      /\ exists v, children c = [text_element (str "value") [] v] /\ nonempty v = true).
Proof.
  intros Hp Hc Ht.
  destruct (parse_program_ok _ _ _ _ Hp) as (ch & s & e & t & _ & _ & -> & _).
  cbn [children] in Hc. unfold program_children in Hc.
  repeat (apply in_app_or in Hc as [Hc|Hc]).
  - destruct Hc as [<-|[]]. now contradict Ht.
  - left. unfold optional_element in Hc. destruct (nonempty _) eqn:E; [|destruct Hc].
    destruct Hc as [<-|[]]. eauto.
  - left. unfold optional_element in Hc. destruct (nonempty _) eqn:E; [|destruct Hc].
    destruct Hc as [<-|[]]. eauto.
  - left. unfold category_elements in Hc.
    destruct (nonempty (category_of sfr_xml)) eqn:E; [|destruct Hc].
    repeat (apply in_app_or in Hc as [Hc|Hc]).
    + destruct (dict_get _ _) as [etsi|]; [|destruct Hc].
      unfold optional_element in Hc. destruct (nonempty etsi) eqn:E'; [|destruct Hc].
      destruct Hc as [<-|[]]. eauto.
    + destruct Hc as [<-|[]]. eauto.
    + destruct (nonempty (meta_category_of sfr_xml)) eqn:E'; [|destruct Hc].
      cbn [andb] in Hc. destruct (negb _); [|destruct Hc].
      destruct Hc as [<-|[]]. eauto.
  - left. unfold url_elements in Hc. destruct (nonempty _); [|destruct Hc].
    destruct Hc as [<-|[]]. eexists. split; [reflexivity|]. split; reflexivity.
  - right. unfold star_elements in Hc.
    destruct (find sfr_xml (str "star-rating")); [|destruct Hc].
    destruct (nonempty _) eqn:E; [|destruct Hc].
    destruct Hc as [<-|[]]. repeat split. eauto.
Qed.

Lemma transformer_emits_no_empty_element_witness :
  exists p evs',
    _parse_program_xmltv categorised [] = (Ok p, evs')
    /\ In (text_element (str "category") lang_fr (str "Direct")) (children p)
    /\ tag (text_element (str "category") lang_fr (str "Direct")) <> str "title"
    /\ ((exists x, text (text_element (str "category") lang_fr (str "Direct")) = Some x
                   /\ nonempty x = true
                   /\ children (text_element (str "category") lang_fr (str "Direct")) = [])
        \/ (tag (text_element (str "category") lang_fr (str "Direct")) = str "star-rating"
            /\ text (text_element (str "category") lang_fr (str "Direct")) = None
            /\ exists v, children (text_element (str "category") lang_fr (str "Direct"))
                         = [text_element (str "value") [] v] /\ nonempty v = true)).
Proof.
  eexists. eexists. split; [vm_compute; reflexivity|].
  split; [vm_compute; do 3 right; left; reflexivity|].
  split; [vm_compute; discriminate|].
  eapply (transformer_emits_no_empty_element categorised _ _ [] _).
  - vm_compute; reflexivity.
  - vm_compute. do 3 right. left. reflexivity.
  - vm_compute. discriminate.
Defined.

(** ** Channel catalogue *)

Lemma dict_get_set {V} (key k : pystr) (v : V) (d : list (pystr * V)) :
  dict_get k (dict_set key v d) = if bool_decide (key = k) then Some v else dict_get k d.
Proof.
  induction d as [|[k0 w] d IH]; cbn [dict_set dict_get]; unfold str_eqb.
  - reflexivity.
  - destruct (bool_decide_reflect (k0 = key)) as [E0|E0].
    + subst k0. cbn [dict_get]. unfold str_eqb.
      now destruct (bool_decide_reflect (key = k)).
    + cbn [dict_get]. unfold str_eqb. rewrite IH.
      destruct (bool_decide_reflect (k0 = k)) as [E1|E1]; [|reflexivity].
      destruct (bool_decide_reflect (key = k)) as [E2|E2]; [congruence | reflexivity].
Qed.

Lemma dict_set_keys {V} (key : pystr) (v : V) (d : list (pystr * V)) :
  (In key (map fst d) /\ map fst (dict_set key v d) = map fst d)
  \/ (~ In key (map fst d) /\ map fst (dict_set key v d) = map fst d ++ [key]).
Proof.
  induction d as [|[k0 w] d IH]; cbn [dict_set map fst].
  - right. split; [intros [] | reflexivity].
  - unfold str_eqb. destruct (bool_decide_reflect (k0 = key)) as [E0|E0].
    + subst. left. split; [now left | reflexivity].
    + cbn [map fst]. destruct IH as [[Hin E]|[Hin E]]; rewrite E.
      * left. split; [now right | reflexivity].
      * right. split; [|reflexivity]. intros [?|?]; congruence.
Qed.

Lemma dict_set_NoDup {V} (key : pystr) (v : V) (d : list (pystr * V)) :
  NoDup (map fst d) -> NoDup (map fst (dict_set key v d)).
Proof.
  intros H. destruct (dict_set_keys key v d) as [[_ E]|[Hin E]]; rewrite E; [exact H|].
  apply NoDup_app. split; [exact H|]. split.
  - intros x Hx [->|[]]%list_elem_of_In. apply Hin. now apply list_elem_of_In.
  - apply NoDup_singleton.
Qed.

Lemma catalogue_skip (seen : list Element) (d : list (pystr * channel_info)) (ch : Element) :
  catalogue_ok seen d ->
  (forall i n, get ch (str "id") = Some i ->
               findtext ch (str "display-name") = Some n -> False) ->
  catalogue_ok (seen ++ [ch]) d.
Proof.
  intros (Hnd & Hsound & Hcomplete) Hch. split; [exact Hnd|]. split.
  - intros k info Hk. destruct (Hsound k info Hk) as (-> & c & Hc & H1 & H2).
    split; [reflexivity|]. exists c. split; [apply in_or_app; now left | now split].
  - intros c i n Hc H1 H2. apply in_app_or in Hc as [Hc|[<-|[]]].
    + eapply Hcomplete; eauto.
    + destruct (Hch i n H1 H2).
Qed.

Lemma catalogue_fold (l seen : list Element) (d : list (pystr * channel_info)) :
  catalogue_ok seen d ->
  catalogue_ok (seen ++ l)
    (fold_left
       (fun channels channel =>
          match get channel (str "id"), findtext channel (str "display-name") with
          | Some sfr_id, Some display_name =>
              dict_set (_sfr_to_xmltv_id sfr_id) (ChannelInfo sfr_id display_name) channels
          | _, _ => channels
          end) l d).
Proof.
  revert seen d. induction l as [|ch l IH]; intros seen d Hd.
  - now rewrite app_nil_r.
  - cbn [fold_left]. replace (seen ++ ch :: l) with ((seen ++ [ch]) ++ l)
      by (now rewrite <- app_assoc).
    apply IH.
    destruct (get ch (str "id")) as [i|] eqn:Ei;
      [destruct (findtext ch (str "display-name")) as [n|] eqn:En|];
      [|apply catalogue_skip; [exact Hd | congruence]..].
    destruct Hd as (Hnd & Hsound & Hcomplete).
    split; [now apply dict_set_NoDup|]. split.
    + intros k info. rewrite dict_get_set.
      destruct (bool_decide_reflect (_sfr_to_xmltv_id i = k)) as [<-|Hne].
      * intros [= <-]. split; [reflexivity|]. exists ch.
        split; [apply in_or_app; right; now left | now split].
      * intros Hk. destruct (Hsound k info Hk) as (-> & c & Hc & H1 & H2).
        split; [reflexivity|]. exists c. split; [apply in_or_app; now left | now split].
    + intros c i' n' Hc H1 H2. rewrite dict_get_set.
      destruct (bool_decide_reflect (_sfr_to_xmltv_id i = _sfr_to_xmltv_id i'));
        [eauto|].
      apply in_app_or in Hc as [Hc|[<-|[]]]; [eapply Hcomplete; eauto|].
      congruence.
Qed.

(** X6. When today's feed is fetched, the catalogue is built from its
    channel elements without any event: its keys are distinct; each entry
    sits under the mapping of its vendor identifier and has the name of a
    channel element with that identifier; each channel element that has an
    identifier and a name has an entry, the others are skipped. *)
Theorem catalogue_of_feed (env : Env) (feed : Element) (evs : list event) :
  urlopen env (today env) = Some feed ->
  exists channels,
    _retrieve_available_channels env evs = (Ok channels, evs)
    /\ catalogue_ok (iter_tag feed (str "channel")) channels.
Proof.
  intros Hfeed. unfold _retrieve_available_channels, bind, _get_programs, or_raise.
  rewrite Hfeed. unfold ret. eexists. split; [reflexivity|].
  apply (catalogue_fold _ [] []). split; [constructor|]. split.
  - intros k info H. discriminate.
  - intros c i n [].
Qed.

Lemma catalogue_of_feed_witness :
  urlopen (paris_2024 no_file) (today (paris_2024 no_file)) = Some feed_20240101
  /\ exists channels,
       _retrieve_available_channels (paris_2024 no_file) [] = (Ok channels, [])
       /\ catalogue_ok (iter_tag feed_20240101 (str "channel")) channels.
Proof.
  split; [reflexivity|].
  exact (catalogue_of_feed (paris_2024 no_file) feed_20240101 [] eq_refl).
Defined.

(** When the fetch fails the construction of the grabber raises. *)
Lemma catalogue_fetch_failure (env : Env) (evs : list event) g u :
  urlopen env (today env) = None -> __init__ env g u evs = (Raise URLError, evs).
Proof.
  intros H. unfold __init__, _retrieve_available_channels, bind, _get_programs, or_raise.
  now rewrite H.
Qed.

(** ** Document assembler: what is kept *)

Lemma transformed_ok (r p : Element) :
  transformed r = Ok p ->
  exists c s e t,
    get r (str "channel") = Some c /\ get r (str "start") = Some s
    /\ get r (str "stop") = Some e /\ findtext r (str "title") = Some t
    /\ p = Elem (str "programme")
             [(str "channel", _sfr_to_xmltv_id c); (str "start", s); (str "stop", e)]
             None (program_children t r).
Proof.
  unfold transformed.
  destruct (get r (str "channel")) as [c|]; [|discriminate].
  destruct (get r (str "start")) as [s|]; [|discriminate].
  destruct (get r (str "stop")) as [e|]; [|discriminate].
  destruct (findtext r (str "title")) as [t|]; [|discriminate].
  intros [= <-]. now exists c, s, e, t.
Qed.

Lemma get_program_times (x s e : pystr) cs :
  let p := Elem (str "programme") [(str "channel", x); (str "start", s); (str "stop", e)]
             None cs in
  get p (str "channel") = Some x /\ get p (str "start") = Some s
  /\ get p (str "stop") = Some e.
Proof. repeat split. Qed.

(** The body of the inner loop, case by case. *)
Lemma grab_program_cases (env : Env) xmltv_ids start stop acc r evs :
  grab_program env xmltv_ids start stop acc r evs
  = match get r (str "channel") with
    | None => (Raise AttributeError, evs)
    | Some c =>
        if bool_decide (_sfr_to_xmltv_id c ∈ xmltv_ids) then
          match transformed r with
          | Raise e => (Raise e, evs)
          | Ok p =>
              match time_of env r (str "start") with
              | None => (Raise ValueError, evs ++ category_warnings r)
              | Some program_start =>
                  match time_of env r (str "stop") with
                  | None => (Raise ValueError, evs ++ category_warnings r)
                  | Some program_stop =>
                      if outside_period program_start program_stop start stop
                      then (Ok acc, evs ++ category_warnings r)
                      else (Ok (Grabbed (programs_xml acc ++ [p])
                                  ({[_sfr_to_xmltv_id c]} ∪ valid_xmltv_ids acc)),
                            (evs ++ category_warnings r) ++ category_warnings r)
                  end
              end
          end
        else (Ok acc, evs)
    end.
Proof.
  unfold grab_program, bind, or_raise.
  destruct (get r (str "channel")) as [c|] eqn:Ec; [|reflexivity]. unfold ret at 1.
  destruct (bool_decide (_sfr_to_xmltv_id c ∈ xmltv_ids)); [|reflexivity]. cbn [negb].
  rewrite parse_program_transformed. unfold transform_events.
  destruct (transformed r) as [p|ex] eqn:Et; [|now rewrite app_nil_r].
  destruct (transformed_ok _ _ Et) as (c' & s & e & t & Ec' & Es & Ee & _ & ->).
  assert (c' = c) by congruence. subst c'.
  unfold parse_time, bind, or_raise, time_of. rewrite Es, Ee.
  destruct (get_program_times (_sfr_to_xmltv_id c) s e (program_children t r))
    as (Gc & Gs & Ge).
  rewrite Gs. unfold ret at 1.
  destruct (strptime env s) as [ps|]; [|reflexivity]. unfold ret at 1.
  rewrite Ge. unfold ret at 1.
  destruct (strptime env e) as [pe|]; [|reflexivity]. unfold ret at 1.
  destruct (outside_period ps pe start stop); [reflexivity|].
  rewrite parse_program_transformed. unfold transform_events. rewrite Et.
  rewrite Gc. reflexivity.
Qed.

Lemma grab_program_kept (env : Env) xmltv_ids start stop acc r evs acc' evs' :
  grab_program env xmltv_ids start stop acc r evs = (Ok acc', evs') ->
  programs_xml acc' = programs_xml acc ++ kept_program env xmltv_ids start stop r.
Proof.
  rewrite grab_program_cases. unfold kept_program.
  destruct (get r (str "channel")) as [c|]; [|discriminate].
  destruct (bool_decide _); [|intros [= <- _]; now rewrite app_nil_r].
  destruct (transformed r) as [p|]; [|discriminate].
  destruct (time_of env r (str "start")); [|discriminate].
  destruct (time_of env r (str "stop")); [|discriminate].
  destruct (outside_period _ _ _ _); intros [= <- _]; [now rewrite app_nil_r | reflexivity].
Qed.

(** A loop whose body appends to a list appends the contributions of its
    items. *)
Lemma for_each_appends {A S B} (body : S -> A -> M S) (f : S -> list B) (g : A -> list B)
    (xs : list A) :
  (forall s x l s' l', body s x l = (Ok s', l') -> f s' = f s ++ g x) ->
  forall s l s' l', for_each body xs s l = (Ok s', l') -> f s' = f s ++ flat_map g xs.
Proof.
  intros Hbody. induction xs as [|x xs IH]; intros s l s' l' H.
  - cbn in H. unfold ret in H. injection H as <- _. now rewrite app_nil_r.
  - cbn [for_each] in H. apply bind_ok in H as (s1 & l1 & H1 & H2).
    cbn [flat_map]. rewrite (IH _ _ _ _ H2), (Hbody _ _ _ _ _ H1). now rewrite app_assoc.
Qed.

Lemma grab_date_kept (env : Env) xmltv_ids start stop acc d evs acc' evs' :
  grab_date env xmltv_ids start stop acc d evs = (Ok acc', evs') ->
  programs_xml acc'
  = programs_xml acc
    ++ match urlopen env d with
       | Some feed => flat_map (kept_program env xmltv_ids start stop)
                        (iter_tag feed (str "programme"))
       | None => []
       end.
Proof.
  unfold grab_date, bind, _get_programs, or_raise.
  destruct (urlopen env d) as [feed|]; [|discriminate]. unfold ret at 1.
  apply for_each_appends. intros s x l s' l'. apply grab_program_kept.
Qed.

Lemma kept_program_in (env : Env) xmltv_ids start stop r p :
  In p (kept_program env xmltv_ids start stop r) ->
  exists c s e program_start program_stop,
    get r (str "channel") = Some c /\ _sfr_to_xmltv_id c ∈ xmltv_ids
    /\ transformed r = Ok p
    /\ attrib p = [(str "channel", _sfr_to_xmltv_id c); (str "start", s); (str "stop", e)]
    /\ strptime env s = Some program_start /\ strptime env e = Some program_stop
    /\ outside_period program_start program_stop start stop = false.
Proof.
  unfold kept_program.
  destruct (get r (str "channel")) as [c|] eqn:Ec; [|intros []].
  destruct (bool_decide_reflect (_sfr_to_xmltv_id c ∈ xmltv_ids)) as [Hin|]; [|intros []].
  destruct (transformed r) as [q|] eqn:Et; [|intros []].
  destruct (time_of env r (str "start")) as [ps|] eqn:Es; [|intros []].
  destruct (time_of env r (str "stop")) as [pe|] eqn:Ee; [|intros []].
  destruct (outside_period ps pe start stop) eqn:Eo; [intros []|].
  intros [<-|[]].
  destruct (transformed_ok _ _ Et) as (c' & s & e & t & Ec' & Gs & Ge & _ & ->).
  assert (c' = c) by congruence. subst c'.
  unfold time_of in Es, Ee. rewrite Gs in Es. rewrite Ge in Ee.
  exists c, s, e, ps, pe. now repeat split.
Qed.

Lemma parse_channel_cases (self : SFRXMLTVGrabber) (xmltv_id : pystr) (evs : list event) :
  _parse_channel_xmltv self xmltv_id evs
  = match dict_get xmltv_id (_channels self) with
    | Some info => (Ok (channel_element xmltv_id (display_name info)), evs)
    | None => (Raise (KeyError xmltv_id), evs)
    end.
Proof.
  unfold _parse_channel_xmltv, bind, or_raise.
  now destruct (dict_get xmltv_id (_channels self)).
Qed.

Lemma append_channels_built (self : SFRXMLTVGrabber) (ids : list pystr) :
  forall root evs root' evs',
    append_channels self root ids evs = (Ok root', evs') ->
    evs' = evs
    /\ exists cs, root' = extend root cs /\ Forall2 (from_catalogue self) ids cs.
Proof.
  unfold append_channels. induction ids as [|x ids IH]; intros root evs root' evs' H.
  - cbn in H. unfold ret in H. injection H as <- <-. split; [reflexivity|].
    exists []. split; [now rewrite extend_nil | constructor].
  - cbn [for_each] in H. apply bind_ok in H as (root1 & l1 & H1 & H2).
    apply bind_ok in H1 as (ch & l2 & Hch & H1). unfold ret in H1. injection H1 as <- <-.
    rewrite parse_channel_cases in Hch.
    destruct (dict_get x (_channels self)) as [info|] eqn:Ex; [|discriminate].
    injection Hch as <- <-.
    destruct (IH _ _ _ _ H2) as (-> & cs & -> & Hcs). split; [reflexivity|].
    eexists (_ :: cs). split; [apply extend_append|].
    constructor; [now exists info | exact Hcs].
Qed.

Lemma append_channels_returns (self : SFRXMLTVGrabber) (ids : list pystr) :
  (forall x, In x ids -> exists info, dict_get x (_channels self) = Some info) ->
  forall root evs, exists root', append_channels self root ids evs = (Ok root', evs).
Proof.
  unfold append_channels. induction ids as [|x ids IH]; intros Hids root evs.
  - eexists. reflexivity.
  - cbn [for_each]. unfold bind at 1 2. rewrite parse_channel_cases.
    destruct (Hids x (or_introl eq_refl)) as [info ->]. unfold ret at 1.
    apply IH. intros y Hy. apply Hids. now right.
Qed.

Lemma get_xmltv_data_assemble (self : SFRXMLTVGrabber) (env : Env) xmltv_ids days offset evs :
  _get_xmltv_data self env xmltv_ids days offset evs
  = assemble self env xmltv_ids (effective_days days offset) offset
      (evs ++ if days + offset >? _MAX_DAYS then [Logged too_many_days] else []).
Proof.
  unfold _get_xmltv_data, clamp_days, effective_days, bind.
  destruct (days + offset >? _MAX_DAYS); [reflexivity|].
  unfold ret. now rewrite app_nil_r.
Qed.

(** What [assemble] returns: the root, the channel elements of the
    identifiers kept, the programs kept. *)
Lemma assemble_document (self : SFRXMLTVGrabber) (env : Env) xmltv_ids days offset
    evs doc evs' :
  assemble self env xmltv_ids days offset evs = (Ok doc, evs') ->
  exists acc cs,
    for_each (grab_date env xmltv_ids (window_start env offset)
                (window_stop env days offset))
      (sfr_fetch_dates env days offset) (Grabbed [] ∅) evs = (Ok acc, evs')
    /\ Forall2 (from_catalogue self) (elements (valid_xmltv_ids acc)) cs
    /\ doc = extend (extend (root_element self) cs) (programs_xml acc).
Proof.
  rewrite assemble_cases.
  destruct (window_in_range env days offset); [|discriminate]. intros H.
  apply bind_ok in H as (acc & l2 & Hacc & H).
  apply bind_ok in H as (root' & l3 & Hroot & H).
  unfold ret in H. injection H as <- <-.
  destruct (append_channels_built _ _ _ _ _ _ Hroot) as (-> & cs & -> & Hcs).
  now exists acc, cs.
Qed.

Lemma from_catalogue_tagged (self : SFRXMLTVGrabber) ids cs :
  Forall2 (from_catalogue self) ids cs -> all_tagged (str "channel") cs.
Proof.
  induction 1 as [|x c ids cs (info & _ & ->) _ IH]; constructor; [reflexivity | exact IH].
Qed.

Lemma kept_programs_programs (env : Env) xmltv_ids days offset evs acc evs' :
  for_each (grab_date env xmltv_ids (window_start env offset)
              (window_stop env days offset))
    (sfr_fetch_dates env days offset) (Grabbed [] ∅) evs = (Ok acc, evs') ->
  programs_xml acc = kept_programs env xmltv_ids days offset.
Proof.
  intros H. unfold kept_programs.
  apply (for_each_appends _ programs_xml _ _
           (fun s x l s' l' => grab_date_kept env xmltv_ids _ _ s x l s' l')) in H.
  exact H.
Qed.

Lemma kept_programs_in (env : Env) xmltv_ids days offset p :
  In p (kept_programs env xmltv_ids days offset) ->
  exists d feed r,
    In d (sfr_fetch_dates env days offset) /\ urlopen env d = Some feed
    /\ In r (iter_tag feed (str "programme"))
    /\ In p (kept_program env xmltv_ids (window_start env offset)
               (window_stop env days offset) r).
Proof.
  unfold kept_programs. intros H.
  apply in_flat_map in H as (d & Hd & H).
  destruct (urlopen env d) as [feed|] eqn:Ef; [|destruct H].
  apply in_flat_map in H as (r & Hr & H). now exists d, feed, r.
Qed.

Lemma kept_programs_tagged (env : Env) xmltv_ids days offset :
  all_tagged (str "programme") (kept_programs env xmltv_ids days offset).
Proof.
  apply List.Forall_forall. intros p Hp.
  apply kept_programs_in in Hp as (d & feed & r & _ & _ & _ & Hp).
  apply kept_program_in in Hp as (c & s & e & ps & pe & _ & _ & Ht & _).
  apply transformed_ok in Ht as (c' & s' & e' & t & _ & _ & _ & _ & ->). reflexivity.
Qed.

Lemma findall_document (root : Element) (cs ps : list Element) :
  children root = [] -> all_tagged (str "channel") cs -> all_tagged (str "programme") ps ->
  children (extend (extend root cs) ps) = cs ++ ps
  /\ findall (extend (extend root cs) ps) (str "channel") = cs
  /\ findall (extend (extend root cs) ps) (str "programme") = ps.
Proof.
  intros Hroot Hcs Hps. destruct root as [t a x c0]. cbn [children] in Hroot. subst c0.
  unfold findall, extend, children. cbn [app]. split; [reflexivity|].
  rewrite !List.filter_app. split.
  - rewrite (filter_tagged_same _ cs) by exact Hcs.
    rewrite (filter_tagged_other (str "programme")) by (first [exact Hps | reflexivity]).
    apply app_nil_r.
  - rewrite (filter_tagged_same _ ps) by exact Hps.
    now rewrite (filter_tagged_other (str "channel")) by (first [exact Hcs | reflexivity]).
Qed.

(** What [_get_xmltv_data] returns, in one piece. *)
Lemma get_xmltv_data_document (self : SFRXMLTVGrabber) (env : Env) xmltv_ids days offset
    evs doc evs' :
  _get_xmltv_data self env xmltv_ids days offset evs = (Ok doc, evs') ->
  exists cs,
    doc = extend (extend (root_element self) cs)
            (kept_programs env xmltv_ids (effective_days days offset) offset)
    /\ (exists ids, Forall2 (from_catalogue self) ids cs)
    /\ children doc = cs ++ kept_programs env xmltv_ids (effective_days days offset) offset
    /\ findall doc (str "channel") = cs
    /\ findall doc (str "programme")
       = kept_programs env xmltv_ids (effective_days days offset) offset.
Proof.
  rewrite get_xmltv_data_assemble. intros H.
  apply assemble_document in H as (acc & cs & Hacc & Hcs & ->).
  rewrite (kept_programs_programs _ _ _ _ _ _ _ Hacc).
  exists cs. split; [reflexivity|]. split; [eauto|].
  apply findall_document.
  - apply root_element_children.
  - eapply from_catalogue_tagged; eauto.
  - apply kept_programs_tagged.
Qed.

(** X7. The [programme] elements of a document [_get_xmltv_data] returns
    are the transformations of the records of the feeds fetched whose
    channel is selected and that are not outside the period, in the order
    of the dates and of the feeds.  Each one is on a selected channel, its
    start and stop are read by the parser, it does not stop before the
    window starts and it starts before the window stops. *)
Theorem programmes_of_document (self : SFRXMLTVGrabber) (env : Env) (xmltv_ids : list pystr)
    (days offset : Z) (evs evs' : list event) (doc : Element) :
  _get_xmltv_data self env xmltv_ids days offset evs = (Ok doc, evs') ->
  let days' := effective_days days offset in
  findall doc (str "programme") = kept_programs env xmltv_ids days' offset
  /\ forall p,
       In p (findall doc (str "programme")) ->
       exists c s e program_start program_stop,
         attrib p = [(str "channel", _sfr_to_xmltv_id c); (str "start", s); (str "stop", e)]
         /\ _sfr_to_xmltv_id c ∈ xmltv_ids
         /\ strptime env s = Some program_start /\ strptime env e = Some program_stop
         /\ instant (window_start env offset) <= instant program_stop
         /\ instant program_start < instant (window_stop env days' offset).
Proof.
  intros H. cbv zeta.
  destruct (get_xmltv_data_document _ _ _ _ _ _ _ _ H) as (cs & _ & _ & _ & _ & ->).
  split; [reflexivity|]. intros p Hp.
  apply kept_programs_in in Hp as (d & feed & r & _ & _ & _ & Hp).
  apply kept_program_in in Hp as (c & s & e & ps & pe & _ & Hin & _ & Ha & Hs & He & Ho).
  exists c, s, e, ps, pe. repeat (split; [assumption|]).
  unfold outside_period, dt_lt, dt_ge in Ho. apply orb_false_iff in Ho as [H1 H2].
  apply Z.ltb_ge in H1. apply Z.leb_gt in H2. now split.
Qed.

Lemma programmes_of_document_witness :
  exists doc evs',
    _get_xmltv_data grabber_2024 (paris_2024 no_file) [str "chan-a.tv.sfr.fr"] 1 0 []
    = (Ok doc, evs')
    /\ findall doc (str "programme")
       = kept_programs (paris_2024 no_file) [str "chan-a.tv.sfr.fr"] (effective_days 1 0) 0.
Proof.
  eexists. eexists. split; [vm_compute; reflexivity|].
  apply (programmes_of_document grabber_2024 (paris_2024 no_file)
           [str "chan-a.tv.sfr.fr"] 1 0 [] []).
  vm_compute; reflexivity.
Defined.

(** ** Document assembler: the document *)

Lemma extend_tag_attrib (e : Element) (cs : list Element) :
  tag (extend e cs) = tag e /\ attrib (extend e cs) = attrib e /\ text (extend e cs) = text e.
Proof. destruct e. now repeat split. Qed.

(** X8. The root of a document [_get_xmltv_data] returns is a [tv] element
    without text that names its source, SFR, the address of the guide and
    the address of the data, and names the generator and its address
    exactly when the grabber was given them. *)
Theorem header_of_document (self : SFRXMLTVGrabber) (env : Env) (xmltv_ids : list pystr)
    (days offset : Z) (evs evs' : list event) (doc : Element) :
  _get_xmltv_data self env xmltv_ids days offset evs = (Ok doc, evs') ->
  tag doc = str "tv" /\ text doc = None
  /\ get doc (str "source-info-name") = Some (str "SFR")
  /\ get doc (str "source-info-url") = Some (str "http://tv.sfr.fr/epg")
  /\ get doc (str "source-data-url") = Some _API_URL
  /\ get doc (str "generator-info-name") = _generator self
  /\ get doc (str "generator-info-url") = _generator_url self
  /\ length (attrib doc)
     = (3 + length (option_list (_generator self))
          + length (option_list (_generator_url self)))%nat.
Proof.
  intros H.
  destruct (get_xmltv_data_document _ _ _ _ _ _ _ _ H) as (cs & -> & _).
  unfold get.
  destruct (extend_tag_attrib (extend (root_element self) cs)
              (kept_programs env xmltv_ids (effective_days days offset) offset))
    as (-> & -> & ->).
  destruct (extend_tag_attrib (root_element self) cs) as (-> & -> & ->).
  unfold root_element.
  destruct (_generator self), (_generator_url self); repeat split.
Qed.

Lemma header_of_document_witness :
  exists doc evs',
    _get_xmltv_data grabber_2024 (paris_2024 no_file) [str "chan-a.tv.sfr.fr"] 1 0 []
    = (Ok doc, evs')
    /\ get doc (str "generator-info-name") = _generator grabber_2024.
Proof.
  eexists. eexists. split; [vm_compute; reflexivity|].
  apply (header_of_document grabber_2024 (paris_2024 no_file)
           [str "chan-a.tv.sfr.fr"] 1 0 [] []).
  vm_compute; reflexivity.
Defined.

(** X9. In a document [_get_xmltv_data] returns the channel elements come
    first and the programme elements after them, nothing else; each channel
    element holds an identifier of the catalogue and, as its only child,
    the display name the catalogue has for it. *)
Theorem layout_of_document (self : SFRXMLTVGrabber) (env : Env) (xmltv_ids : list pystr)
    (days offset : Z) (evs evs' : list event) (doc : Element) :
  _get_xmltv_data self env xmltv_ids days offset evs = (Ok doc, evs') ->
  children doc = findall doc (str "channel") ++ findall doc (str "programme")
  /\ forall c,
       In c (findall doc (str "channel")) ->
       exists xmltv_id info,
         dict_get xmltv_id (_channels self) = Some info
         /\ c = Elem (str "channel") [(str "id", xmltv_id)] None
                  [Elem (str "display-name") [] (Some (display_name info)) []].
Proof.
  intros H.
  destruct (get_xmltv_data_document _ _ _ _ _ _ _ _ H)
    as (cs & _ & (ids & Hcs) & Hch & -> & ->).
  split; [exact Hch|].
  intros c Hc. clear - Hcs Hc.
  induction Hcs as [|x c0 ids cs (info & Hx & ->) _ IH]; [destruct Hc|].
  destruct Hc as [<-|Hc]; [now exists x, info | now apply IH].
Qed.

Lemma layout_of_document_witness :
  exists doc evs',
    _get_xmltv_data grabber_2024 (paris_2024 no_file) [str "chan-a.tv.sfr.fr"] 1 0 []
    = (Ok doc, evs')
    /\ children doc = findall doc (str "channel") ++ findall doc (str "programme").
Proof.
  eexists. eexists. split; [vm_compute; reflexivity|].
  apply (layout_of_document grabber_2024 (paris_2024 no_file)
           [str "chan-a.tv.sfr.fr"] 1 0 [] []).
  vm_compute; reflexivity.
Defined.

(** A loop returns when its body returns on every item and keeps a property
    that makes it return. *)
Lemma for_each_returns {A S} (J : S -> Prop) (body : S -> A -> M S) (xs : list A) :
  (forall x, In x xs -> forall s l, J s -> exists s' l', body s x l = (Ok s', l') /\ J s') ->
  forall s l, J s -> exists s' l', for_each body xs s l = (Ok s', l') /\ J s'.
Proof.
  induction xs as [|x xs IH]; intros Hbody s l Hs.
  - exists s, l. now split.
  - cbn [for_each]. unfold bind.
    destruct (Hbody x (or_introl eq_refl) s l Hs) as (s1 & l1 & -> & Hs1).
    apply IH; [|exact Hs1]. intros y Hy. apply Hbody. now right.
Qed.

(** X10. [_get_xmltv_data] returns a document as soon as the days added
    at lines 215 to 225 stay within what [datetime] accepts, every date to
    fetch has a feed, every record of these feeds names its channel, and
    every record of a selected channel has a title and a start and a stop
    that the parser reads, on a channel of the catalogue. *)
Theorem grab_returns (self : SFRXMLTVGrabber) (env : Env) (xmltv_ids : list pystr)
    (days offset : Z) (evs : list event) :
  window_in_range env (effective_days days offset) offset = true ->
  (forall d, In d (sfr_fetch_dates env (effective_days days offset) offset) ->
             exists feed, urlopen env d = Some feed
                          /\ Forall (record_ok self env xmltv_ids)
                               (iter_tag feed (str "programme"))) ->
  exists doc evs', _get_xmltv_data self env xmltv_ids days offset evs = (Ok doc, evs').
Proof.
  intros Hrange Hfeeds. rewrite get_xmltv_data_assemble.
  set (days' := effective_days days offset) in *.
  set (evs1 := evs ++ _). clearbody evs1.
  rewrite assemble_cases, Hrange. unfold bind.
  set (J := fun acc : grabbed =>
              forall x, In x (elements (valid_xmltv_ids acc)) ->
                        exists info, dict_get x (_channels self) = Some info).
  destruct (for_each_returns J
              (grab_date env xmltv_ids (window_start env offset)
                 (window_stop env days' offset))
              (sfr_fetch_dates env days' offset)) with (s := Grabbed [] ∅) (l := evs1)
    as (acc & evs2 & -> & Hacc).
  - intros d Hd s l Hs. destruct (Hfeeds d Hd) as (feed & Hfeed & Hrecords).
    unfold grab_date, bind, _get_programs, or_raise. rewrite Hfeed. unfold ret at 1.
    apply for_each_returns; [|exact Hs].
    intros r Hr s0 l0 Hs0. rewrite grab_program_cases.
    apply (proj1 (List.Forall_forall _ _) Hrecords) in Hr as (c & Hc & Hsel).
    rewrite Hc.
    destruct (bool_decide_reflect (_sfr_to_xmltv_id c ∈ xmltv_ids)) as [Hin|]; [|eauto].
    destruct (Hsel Hin) as ((t & Ht) & (ps & Hps) & (pe & Hpe) & info & Hinfo).
    rewrite Hps, Hpe.
    assert (Htr : exists p, transformed r = Ok p).
    { unfold transformed, time_of in *. rewrite Hc, Ht.
      destruct (get r (str "start")); [|discriminate].
      destruct (get r (str "stop")); [|discriminate]. eauto. }
    destruct Htr as [p ->].
    destruct (outside_period ps pe _ _); [eauto|].
    eexists. eexists. split; [reflexivity|].
    intros x Hx. cbn [valid_xmltv_ids] in Hx.
    apply list_elem_of_In, elem_of_elements, elem_of_union in Hx as [Hx|Hx].
    + apply elem_of_singleton in Hx as ->. eauto.
    + apply Hs0. now apply list_elem_of_In, elem_of_elements.
  - intros x Hx. cbn [valid_xmltv_ids] in Hx.
    apply list_elem_of_In, elem_of_elements in Hx. set_solver.
  - destruct (append_channels_returns self _ Hacc (root_element self) evs2) as [root' ->].
    unfold ret. eauto.
Qed.

Lemma record_ok_2024 (r : Element) :
  In r [late_show; night_film; early_news; evening_film; elsewhere; next_day] ->
  record_ok grabber_2024 (paris_2024 no_file) [str "chan-a.tv.sfr.fr"] r.
Proof.
  intros H. repeat (destruct H as [<-|H]); [..|destruct H].
  all: eexists; split; [reflexivity|]; intros Hsel.
  all: try (exfalso; apply list_elem_of_In in Hsel; destruct Hsel as [Hsel|[]];
            vm_compute in Hsel; discriminate).
  all: repeat split; eexists; vm_compute; reflexivity.
Qed.

Lemma grab_returns_witness :
  window_in_range (paris_2024 no_file) (effective_days 1 0) 0 = true
  /\ (forall d, In d (sfr_fetch_dates (paris_2024 no_file) (effective_days 1 0) 0) ->
             exists feed, urlopen (paris_2024 no_file) d = Some feed
                          /\ Forall (record_ok grabber_2024 (paris_2024 no_file)
                                       [str "chan-a.tv.sfr.fr"])
                               (iter_tag feed (str "programme")))
  /\ exists doc evs',
       _get_xmltv_data grabber_2024 (paris_2024 no_file) [str "chan-a.tv.sfr.fr"] 1 0 []
       = (Ok doc, evs').
Proof.
  assert (H : forall d,
             In d (sfr_fetch_dates (paris_2024 no_file) (effective_days 1 0) 0) ->
             exists feed, urlopen (paris_2024 no_file) d = Some feed
                          /\ Forall (record_ok grabber_2024 (paris_2024 no_file)
                                       [str "chan-a.tv.sfr.fr"])
                               (iter_tag feed (str "programme"))).
  { intros d [<-|[<-|[]]]; eexists; (split; [reflexivity|]);
      apply List.Forall_forall; intros r Hr; apply record_ok_2024;
      repeat (destruct Hr as [<-|Hr]; [cbn; tauto|]); destruct Hr. }
  split; [reflexivity|]. split; [exact H|].
  exact (grab_returns grabber_2024 (paris_2024 no_file) [str "chan-a.tv.sfr.fr"] 1 0 []
           eq_refl H).
Defined.

(** X11. The transformer runs once on every record of a selected channel
    and once more on those that are kept: when the body of the inner loop
    returns, it has logged the category warning of the record once if the
    channel is selected, and a second time if the record is kept; a record
    of another channel logs nothing. *)
Theorem warnings_of_record (env : Env) (xmltv_ids : list pystr) (start stop : datetime)
    (acc acc' : grabbed) (r : Element) (evs evs' : list event) :
  grab_program env xmltv_ids start stop acc r evs = (Ok acc', evs') ->
  evs' = evs
         ++ (if selected xmltv_ids r then category_warnings r else [])
         ++ (match kept_program env xmltv_ids start stop r with
             | [] => []
             | _ :: _ => category_warnings r
             end).
Proof.
  rewrite grab_program_cases. unfold selected, kept_program.
  destruct (get r (str "channel")) as [c|]; [|discriminate].
  destruct (bool_decide _); [|intros [= _ <-]; now rewrite app_nil_r].
  destruct (transformed r) as [p|]; [|discriminate].
  destruct (time_of env r (str "start")); [|discriminate].
  destruct (time_of env r (str "stop")); [|discriminate].
  destruct (outside_period _ _ _ _); intros [= _ <-].
  - now rewrite app_nil_r.
  - now rewrite app_assoc.
Qed.

Lemma warnings_of_record_witness :
  let env := paris_2024 no_file in
  exists acc' evs',
    grab_program env [str "chan-a.tv.sfr.fr"] (window_start env 0) (window_stop env 1 0)
      (Grabbed [] ∅) unknown_category [] = (Ok acc', evs')
    /\ evs' = [Logged (no_etsi_equivalent (str "Divertissement"));
               Logged (no_etsi_equivalent (str "Divertissement"))].
Proof.
  cbv zeta.
  destruct (grab_program (paris_2024 no_file) [str "chan-a.tv.sfr.fr"]
              (window_start (paris_2024 no_file) 0) (window_stop (paris_2024 no_file) 1 0)
              (Grabbed [] ∅) unknown_category []) as [[acc'|e] evs'] eqn:H.
  - exists acc', evs'. split; [reflexivity|].
    rewrite (warnings_of_record _ _ _ _ _ _ _ _ _ H). reflexivity.
  - rewrite grab_program_cases in H. discriminate H.
Defined.

(** ** Window resolver: the dates fetched *)





Lemma nominal_dates_run (start : datetime) (days : Z) :
  nominal_dates start days
  = map (fun i => date_of start + Z.of_nat i) (seq 0 (Z.to_nat days)).
Proof. unfold nominal_dates, range. now rewrite map_map. Qed.

Lemma run_cons (first : Z) (n : nat) :
  first :: map (fun i => first + 1 + Z.of_nat i) (seq 0 n)
  = map (fun i => first + Z.of_nat i) (seq 0 (S n)).
Proof.
  cbn [seq map]. f_equal; [lia|].
  rewrite <- seq_shift, map_map. apply map_ext. intros i. lia.
Qed.

Lemma run_snoc (first : Z) (n : nat) :
  map (fun i => first + Z.of_nat i) (seq 0 n) ++ [first + Z.of_nat n]
  = map (fun i => first + Z.of_nat i) (seq 0 (S n)).
Proof. now rewrite seq_S, map_app. Qed.

Lemma run_NoDup (first : Z) (n : nat) :
  NoDup (map (fun i => first + Z.of_nat i) (seq 0 n)).
Proof.
  apply NoDup_fmap_2; [intros i j; lia|]. apply NoDup_ListNoDup, seq_NoDup.
Qed.

(** X13. Whatever the clock, the zones, [days] and [offset] are, when lines
    213 to 227 raise nothing the list [sfr_fetch_dates] they build is a run
    of consecutive days in increasing order, so that no date is in it
    twice; it is the list [sfr_fetch_dates] of this development. *)
Theorem fetch_dates_consecutive (env : Env) (days offset : Z) (evs evs' : list event)
    (start stop : datetime) (dates : list date) :
  resolve_window env days offset evs = (Ok (start, stop, dates), evs') ->
  dates = sfr_fetch_dates env days offset
  /\ (exists first, dates = map (fun i => first + Z.of_nat i) (seq 0 (length dates)))
  /\ NoDup dates.
Proof.
  rewrite resolve_window_cases.
  destruct (window_in_range env days offset); [|discriminate].
  intros [= _ _ <- _]. split; [reflexivity|].
  assert (H : exists first n,
             sfr_fetch_dates env days offset
             = map (fun i => first + Z.of_nat i) (seq 0 n)).
  { rewrite sfr_fetch_dates_shape. cbv zeta. rewrite nominal_dates_run.
    set (s := date_of (window_start env offset)).
    assert (Et : date_of (window_stop env days offset) = s + days) by reflexivity.
    rewrite Et.
    destruct (leading_spillover _ _); cbn [negb andb app].
    - exists (s - 1), (S (Z.to_nat days)). rewrite app_nil_r, <- run_cons.
      f_equal. apply map_ext. intros i. lia.
    - destruct (trailing_spillover _ _).
      + destruct (Z.le_gt_cases 0 days) as [Hd|Hd].
        * exists s, (S (Z.to_nat days)). rewrite <- run_snoc. f_equal. f_equal. lia.
        * exists (s + days), 1%nat.
          replace (Z.to_nat days) with O by lia. cbn. f_equal. lia.
      + exists s, (Z.to_nat days). now rewrite app_nil_r. }
  destruct H as (first & n & ->). split.
  - exists first. now rewrite length_map, length_seq.
  - apply run_NoDup.
Qed.

Lemma fetch_dates_consecutive_witness :
  let env := pacific_2024 no_file in
  run (resolve_window env 2 0)
  = (Ok (window_start env 0, window_stop env 2 0,
         [ymd2ord 2024 1 1; ymd2ord 2024 1 2; ymd2ord 2024 1 3]), [])
  /\ NoDup [ymd2ord 2024 1 1; ymd2ord 2024 1 2; ymd2ord 2024 1 3].
Proof.
  cbv zeta.
  assert (H : resolve_window (pacific_2024 no_file) 2 0 []
              = (Ok (window_start (pacific_2024 no_file) 0,
                     window_stop (pacific_2024 no_file) 2 0,
                     [ymd2ord 2024 1 1; ymd2ord 2024 1 2; ymd2ord 2024 1 3]), []))
    by reflexivity.
  split; [exact H|].
  exact (proj2 (proj2 (fetch_dates_consecutive (pacific_2024 no_file) 2 0 [] [] _ _ _ H))).
Defined.

(** X14. Where the window stays within the dates of [datetime], lines 213
    to 227 raise nothing, and which date they add is decided by two
    numbers: the lead of Paris over the machine on the first day of the
    window and on the day it stops.  A lead under five hours on the first
    day: the eve of that day is put in front.  Otherwise, a lead over five
    hours on the day the window stops: that day is put behind.  Otherwise
    nothing is added. *)
Theorem spillover_by_offset (env : Env) (days offset : Z) (evs : list event) :
  window_in_range env days offset = true ->
  let start := window_start env offset in
  let stop := window_stop env days offset in
  resolve_window env days offset evs
  = (Ok (start, stop,
         if paris_lead env (date_of start) <? 18000
         then (date_of start - 1) :: nominal_dates start days
         else if 18000 <? paris_lead env (date_of stop)
              then nominal_dates start days ++ [date_of stop]
              else nominal_dates start days), evs).
Proof.
  intros Hrange. cbv zeta. rewrite resolve_window_cases, Hrange.
  assert (L : leading_spillover env (window_start env offset)
              = (paris_lead env (date_of (window_start env offset)) <? 18000)).
  { unfold paris_lead, leading_spillover, dt_lt, instant, utcoffset, localize,
      window_start, shift_days, combine, date_of, fixed_offset, _SFR_START_TIME.
    cbn [dt_date dt_second dt_tzinfo].
    apply eq_true_iff_eq. rewrite !Z.ltb_lt. unfold time. lia. }
  assert (T : trailing_spillover env (window_stop env days offset)
              = (18000 <? paris_lead env (date_of (window_stop env days offset)))).
  { unfold paris_lead, trailing_spillover, dt_gt, instant, utcoffset, localize,
      window_stop, window_start, shift_days, combine, date_of, fixed_offset,
      _SFR_START_TIME.
    cbn [dt_date dt_second dt_tzinfo].
    apply eq_true_iff_eq. rewrite !Z.ltb_lt. unfold time. lia. }
  unfold sfr_fetch_dates. now rewrite L, T.
Qed.

(** Four hours behind UTC, in July: Paris leads by six hours, the day the
    window stops is put behind. *)
Lemma spillover_by_offset_witness :
  let env := world (ymd2ord 2024 7 1) (fixed_offset (-14400)) feeds no_file in
  window_in_range env 1 0 = true
  /\ paris_lead env (ymd2ord 2024 7 1) = 21600
  /\ paris_lead env (ymd2ord 2024 7 2) = 21600
  /\ run (resolve_window env 1 0)
     = (Ok (window_start env 0, window_stop env 1 0,
            [ymd2ord 2024 7 1; ymd2ord 2024 7 2]), []).
Proof.
  cbv zeta. split; [reflexivity|]. split; [reflexivity|]. split; [reflexivity|].
  exact (spillover_by_offset (world (ymd2ord 2024 7 1) (fixed_offset (-14400)) feeds no_file)
           1 0 [] eq_refl).
Defined.

(** On a machine on UTC the eve is fetched; eight hours behind UTC the day
    the window stops; four hours behind UTC, in January, Paris leads by
    five hours and nothing is added. *)
Example fetch_dates_utc_and_pacific :
  sfr_fetch_dates (world (ymd2ord 2024 7 1) (fixed_offset 0) feeds no_file) 1 0
  = [ymd2ord 2024 6 30; ymd2ord 2024 7 1]
  /\ sfr_fetch_dates (pacific_2024 no_file) 1 0 = [ymd2ord 2024 1 1; ymd2ord 2024 1 2]
  /\ run (resolve_window (world (ymd2ord 2024 1 1) (fixed_offset (-14400)) feeds no_file) 1 0)
     = (Ok (window_start (world (ymd2ord 2024 1 1) (fixed_offset (-14400)) feeds no_file) 0,
            window_stop (world (ymd2ord 2024 1 1) (fixed_offset (-14400)) feeds no_file) 1 0,
            [ymd2ord 2024 1 1]), []).
Proof. repeat split; reflexivity. Qed.

(** ** Interactive configuration *)

Lemma configure_unfold (env : Env) channels config_file :
  _configure env channels config_file
  = (let* sel := for_each configure_step channels (Selection [] false false [] (stdin env)) in
     _write_configuration env (sel_ids sel) config_file).
Proof. reflexivity. Qed.

(** One turn of the loop: it raises [EOFError] when an answer is needed and
    the input has ended, else it keeps the identifiers selected and adds
    the one of the channel or not; it produces no event. *)
Lemma configure_step_cases (st : selection) (ch : pystr * channel_info) (evs : list event) :
  (configure_step st ch evs = (Raise EOFError, evs))
  \/ exists st',
       configure_step st ch evs = (Ok st', evs)
       /\ (sel_ids st' = sel_ids st \/ sel_ids st' = sel_ids st ++ [fst ch]).
Proof.
  unfold configure_step, bind, or_raise.
  destruct (negb (select_all st) && negb (select_none st)).
  - destruct (prompt _ (sel_input st)) as [[answer rest]|]; [|now left].
    right. unfold ret. cbn [fst snd select_all sel_answer sel_ids].
    destruct (_ || _); eexists; (split; [reflexivity|]); cbn [sel_ids]; tauto.
  - right. unfold ret. destruct (_ || _); eexists; (split; [reflexivity|]);
      cbn [sel_ids]; tauto.
Qed.

Lemma configure_loop (channels : list (pystr * channel_info)) :
  forall st evs seen,
    sel_ids st `sublist_of` seen ->
    (for_each configure_step channels st evs = (Raise EOFError, evs))
    \/ exists st',
         for_each configure_step channels st evs = (Ok st', evs)
         /\ sel_ids st' `sublist_of` seen ++ map fst channels.
Proof.
  induction channels as [|ch channels IH]; intros st evs seen Hst.
  - right. exists st. split; [reflexivity|]. now rewrite app_nil_r.
  - cbn [for_each map]. unfold bind.
    destruct (configure_step_cases st ch evs) as [->|(st1 & -> & Hids)]; [now left|].
    replace (seen ++ fst ch :: map fst channels) with ((seen ++ [fst ch]) ++ map fst channels)
      by (now rewrite <- app_assoc).
    apply IH. destruct Hids as [->| ->].
    + now apply sublist_inserts_r.
    + now apply sublist_app.
Qed.


Lemma configure_all_loop (channels : list (pystr * channel_info)) :
  forall st evs,
    select_all st = true ->
    for_each configure_step channels st evs
    = (Ok (Selection (sel_ids st ++ map fst channels) true (select_none st)
             (sel_answer st) (sel_input st)), evs).
Proof.
  induction channels as [|ch channels IH]; intros [ids a n ans inp] evs Ha;
    cbn [select_all] in Ha; subst a.
  - cbn. now rewrite app_nil_r.
  - cbn [for_each]. unfold bind at 1. unfold configure_step, bind, ret.
    cbn [select_all select_none sel_ids sel_answer sel_input negb andb orb].
    rewrite IH by reflexivity.
    cbn [select_all select_none sel_ids sel_answer sel_input map].
    now rewrite <- app_assoc.
Qed.

Lemma configure_none_loop (channels : list (pystr * channel_info)) :
  forall st evs,
    select_all st = false -> select_none st = true -> sel_answer st = str "none" ->
    for_each configure_step channels st evs = (Ok st, evs).
Proof.
  induction channels as [|ch channels IH]; intros [ids a n ans inp] evs Ha Hn Hans;
    cbn [select_all select_none sel_answer] in *; subst a n ans.
  - reflexivity.
  - cbn [for_each]. unfold bind at 1. unfold configure_step, bind, ret.
    cbn [select_all select_none sel_ids sel_answer sel_input negb andb orb].
    change (str_eqb (str "none") (str "yes")) with false. cbv iota.
    now apply IH.
Qed.

Lemma configure_step_answer (ids : list pystr) (ans line : pystr) (rest : list pystr)
    (ch : pystr * channel_info) (evs : list event) :
  bool_decide (strip line ∈ [str "yes"; str "no"; str "all"; str "none"])
  || negb (nonempty (strip line)) = true ->
  configure_step (Selection ids false false ans (line :: rest)) ch evs
  = (Ok (if str_eqb (strip line) (str "all") || str_eqb (strip line) (str "yes")
         then Selection (ids ++ [fst ch]) (str_eqb (strip line) (str "all"))
                (str_eqb (strip line) (str "none")) (strip line) rest
         else Selection ids (str_eqb (strip line) (str "all"))
                (str_eqb (strip line) (str "none")) (strip line) rest), evs).
Proof.
  intros Hacc. unfold configure_step, bind, or_raise, ret.
  cbn [select_all select_none sel_ids sel_answer sel_input negb andb prompt].
  rewrite Hacc. reflexivity.
Qed.

(** X16. Where the configuration file can be written, an answer [all] to
    the first question selects every channel of the catalogue without
    another question, and an answer [none] selects no channel.  Spaces
    around the answer do not count. *)
Theorem configure_all_or_none (env : Env)
    (available_channels : list (pystr * channel_info)) (config_file : pystr)
    (evs : list event) (line : pystr) (rest : list pystr) :
  stdin env = line :: rest ->
  can_write env config_file = true ->
  (strip line = str "all" ->
   _configure env available_channels config_file evs
   = (Ok tt, evs ++ [Wrote config_file
                       (Text (configuration_text (map fst available_channels)))]))
  /\ (strip line = str "none" ->
      _configure env available_channels config_file evs
      = (Ok tt, evs ++ [Wrote config_file (Text [])])).
Proof.
  intros Hin Hw. rewrite configure_unfold. unfold bind. rewrite Hin.
  unfold _write_configuration. rewrite Hw.
  destruct available_channels as [|ch channels].
  - split; intros _; reflexivity.
  - cbn [for_each]. unfold bind. split; intros Hline.
    + rewrite configure_step_answer by (now rewrite Hline).
      rewrite Hline. change (str_eqb (str "all") (str "all")) with true. cbn [orb].
      rewrite configure_all_loop by reflexivity. reflexivity.
    + rewrite configure_step_answer by (now rewrite Hline).
      rewrite Hline. change (str_eqb (str "none") (str "all")) with false.
      change (str_eqb (str "none") (str "yes")) with false. cbn [orb].
      change (str_eqb (str "none") (str "none")) with true.
      rewrite configure_none_loop by reflexivity. reflexivity.
Qed.

Lemma configure_all_or_none_witness :
  let env := typing_2024 [str " all "] in
  stdin env = [str " all "]
  /\ can_write env conf_path = true
  /\ strip (str " all ") = str "all"
  /\ _configure env (_channels grabber_2024) conf_path []
     = (Ok tt, [] ++ [Wrote conf_path
                        (Text (configuration_text (map fst (_channels grabber_2024))))]).
Proof.
  cbv zeta. split; [reflexivity|]. split; [reflexivity|]. split; [reflexivity|].
  exact (proj1 (configure_all_or_none (typing_2024 [str " all "]) (_channels grabber_2024)
                  conf_path [] (str " all ") [] eq_refl eq_refl) eq_refl).
Defined.

(** ** Main execution path: when a document is written *)

Lemma only_logged_refl (evs : list event) : only_logged evs evs.
Proof. exists []. now rewrite app_nil_r. Qed.

Lemma only_logged_trans (a b c : list event) :
  only_logged a b -> only_logged b c -> only_logged a c.
Proof.
  intros [r1 ->] [r2 ->]. exists (r1 ++ r2). now rewrite map_app, app_assoc.
Qed.

Lemma only_logged_app (evs : list event) (rs : list logrec) :
  only_logged evs (evs ++ map Logged rs).
Proof. now exists rs. Qed.

Lemma wrote_document_logged (earlier later : list event) :
  only_logged earlier later -> wrote_document later = wrote_document earlier.
Proof.
  intros [rs ->]. unfold wrote_document. rewrite existsb_app.
  replace (existsb _ (map Logged rs)) with false; [apply orb_false_r|].
  induction rs as [|r rs IH]; [reflexivity | exact IH].
Qed.

Lemma category_warnings_logged (r : Element) :
  exists rs, category_warnings r = map Logged rs.
Proof.
  unfold category_warnings. destruct (nonempty _); [|now exists []].
  destruct (dict_get _ _); [now exists [] | eexists [_]; reflexivity].
Qed.

Lemma for_each_only_logged {A S} (body : S -> A -> M S) (xs : list A) :
  (forall s x l r l', body s x l = (r, l') -> only_logged l l') ->
  forall s l r l', for_each body xs s l = (r, l') -> only_logged l l'.
Proof.
  intros Hbody. induction xs as [|x xs IH]; intros s l r l' H.
  - cbn in H. unfold ret in H. injection H as _ <-. apply only_logged_refl.
  - cbn [for_each] in H. unfold bind in H.
    destruct (body s x l) as [[s1|e] l1] eqn:E.
    + eapply only_logged_trans; [eapply Hbody; exact E | eapply IH; exact H].
    + injection H as _ <-. eapply Hbody; exact E.
Qed.

Lemma grab_program_only_logged (env : Env) xmltv_ids start stop acc x evs r evs' :
  grab_program env xmltv_ids start stop acc x evs = (r, evs') -> only_logged evs evs'.
Proof.
  rewrite grab_program_cases.
  destruct (category_warnings_logged x) as [rs Hrs].
  assert (H1 : only_logged evs (evs ++ category_warnings x))
    by (rewrite Hrs; apply only_logged_app).
  assert (H2 : only_logged evs ((evs ++ category_warnings x) ++ category_warnings x)).
  { eapply only_logged_trans; [exact H1|]. rewrite Hrs. apply only_logged_app. }
  destruct (get x (str "channel")); [|intros [= _ <-]; apply only_logged_refl].
  destruct (bool_decide _); [|intros [= _ <-]; apply only_logged_refl].
  destruct (transformed x); [|intros [= _ <-]; apply only_logged_refl].
  destruct (time_of env x (str "start")); [|intros [= _ <-]; exact H1].
  destruct (time_of env x (str "stop")); [|intros [= _ <-]; exact H1].
  destruct (outside_period _ _ _ _); intros [= _ <-]; assumption.
Qed.

Lemma get_xmltv_data_only_logged (self : SFRXMLTVGrabber) (env : Env) xmltv_ids days offset
    evs r evs' :
  _get_xmltv_data self env xmltv_ids days offset evs = (r, evs') -> only_logged evs evs'.
Proof.
  rewrite get_xmltv_data_assemble.
  set (evs1 := evs ++ _).
  assert (H0 : only_logged evs evs1).
  { subst evs1. destruct (_ >? _); [now exists [too_many_days] | exists []; reflexivity]. }
  clearbody evs1. intros H. eapply only_logged_trans; [exact H0|]. clear H0.
  rewrite assemble_cases in H.
  destruct (window_in_range env (effective_days days offset) offset);
    [|injection H as _ <-; apply only_logged_refl].
  unfold bind in H.
  destruct (for_each (grab_date _ _ _ _) _ _ evs1) as [[acc|e] evs2] eqn:E1.
  - assert (H1 : only_logged evs1 evs2).
    { eapply for_each_only_logged; [|exact E1].
      intros s d l r0 l'. unfold grab_date, bind, _get_programs, or_raise.
      destruct (urlopen env d); [|intros [= _ <-]; apply only_logged_refl].
      unfold ret at 1. apply for_each_only_logged.
      intros s0 x l0 r1 l1. apply grab_program_only_logged. }
    eapply only_logged_trans; [exact H1|].
    destruct (append_channels self (root_element self) _ evs2) as [[root'|e] evs3] eqn:E2.
    + unfold ret in H. injection H as _ <-.
      eapply for_each_only_logged; [|exact E2].
      intros s x l r0 l'. unfold bind. rewrite parse_channel_cases.
      destruct (dict_get _ _); intros [= _ <-]; apply only_logged_refl.
    + injection H as _ <-.
      eapply for_each_only_logged; [|exact E2].
      intros s x l r0 l'. unfold bind. rewrite parse_channel_cases.
      destruct (dict_get _ _); intros [= _ <-]; apply only_logged_refl.
  - injection H as _ <-.
    eapply for_each_only_logged; [|exact E1].
    intros s d l r0 l'. unfold grab_date, bind, _get_programs, or_raise.
    destruct (urlopen env d); [|intros [= _ <-]; apply only_logged_refl].
    unfold ret at 1. apply for_each_only_logged.
    intros s0 x l0 r1 l1. apply grab_program_only_logged.
Qed.

Lemma init_cases (env : Env) g u (evs : list event) :
  __init__ env g u evs = (Raise URLError, evs)
  \/ exists sfr, __init__ env g u evs = (Ok sfr, evs).
Proof.
  unfold __init__, _retrieve_available_channels, bind, _get_programs, or_raise.
  destruct (urlopen env (today env)); [right; eexists; reflexivity | now left].
Qed.

Lemma read_configuration_cases (env : Env) (config_file : pystr) (evs : list event) :
  _read_configuration env config_file evs = (Raise OSError, evs)
  \/ exists xmltv_ids, _read_configuration env config_file evs = (Ok xmltv_ids, evs).
Proof.
  unfold _read_configuration, bind, or_raise.
  destruct (read_file env config_file); [right; eexists; reflexivity | now left].
Qed.

Lemma main_outcome (env : Env) (args : Args) :
  exists r evs,
    run (_main env args) = (r, evs) /\ (r = Ok tt \/ wrote_document evs = false).
Proof.
  unfold run, _main.
  destruct (arg_version args); [eexists; eexists; split; [reflexivity | now right]|].
  destruct (arg_description args); [eexists; eexists; split; [reflexivity | now right]|].
  destruct (arg_capabilities args); [eexists; eexists; split; [reflexivity | now right]|].
  unfold bind at 1.
  destruct (init_cases env (Some _PROGRAM) (Some __url__) []) as [->|[sfr ->]];
    [eexists; eexists; split; [reflexivity | now right]|].
  destruct (arg_configure args).
  - unfold bind at 1. rewrite configure_unfold. unfold bind at 1.
    destruct (configure_loop (get_available_channels sfr)
                (Selection [] false false [] (stdin env)) [] [] (sublist_nil_l _))
      as [->|(st & -> & _)]; [eexists; eexists; split; [reflexivity | now right]|].
    unfold _write_configuration.
    destruct (can_write env (arg_config_file args));
      eexists; eexists; (split; [reflexivity | now right]).
  - unfold bind at 1.
    destruct (isfile env (arg_config_file args)); cbn [negb];
      [|eexists; eexists; split; [reflexivity | now right]].
    unfold ret at 1. unfold bind at 1.
    destruct (read_configuration_cases env (arg_config_file args) []) as [->|[ids ->]];
      [eexists; eexists; split; [reflexivity | now right]|].
    unfold bind at 1.
    set (evs1 := snd ((match ids with
                       | [] => log (empty_configuration (arg_config_file args))
                       | _ :: _ => ret tt
                       end) [])).
    assert (E1 : (match ids with
                  | [] => log (empty_configuration (arg_config_file args))
                  | _ :: _ => ret tt
                  end) [] = (Ok tt, evs1)) by (subst evs1; now destruct ids).
    assert (L1 : only_logged [] evs1).
    { subst evs1. destruct ids; [now exists [empty_configuration (arg_config_file args)]
                               | now exists []]. }
    rewrite E1. clearbody evs1. unfold write_xmltv, bind.
    destruct (_get_xmltv_data sfr env ids (arg_days args) (arg_offset args) evs1)
      as [[doc|e] evs2] eqn:E2.
    + destruct (can_write env (arg_output args)).
      * eexists. eexists. split; [reflexivity | now left].
      * eexists. eexists. split; [reflexivity|]. right.
        rewrite (wrote_document_logged evs1 evs2)
          by (eapply get_xmltv_data_only_logged; exact E2).
        now rewrite (wrote_document_logged [] evs1 L1).
    + eexists. eexists. split; [reflexivity|]. right.
      rewrite (wrote_document_logged evs1 evs2)
        by (eapply get_xmltv_data_only_logged; exact E2).
      now rewrite (wrote_document_logged [] evs1 L1).
Qed.

(** X17. No partial output: whatever the surroundings and the arguments
    are, when the run of [_main] has written a document it has returned
    normally, with status 0; a run that raises or exits has written
    none. *)
Theorem document_only_on_success (env : Env) (args : Args) :
  wrote_document (snd (run (_main env args))) = true ->
  fst (run (_main env args)) = Ok tt /\ exit_status (fst (run (_main env args))) = 0.
Proof.
  destruct (main_outcome env args) as (r & evs & -> & [->|H]); cbn [fst snd].
  - now split.
  - congruence.
Qed.

Lemma document_only_on_success_witness :
  wrote_document (snd (run (_main (paris_2024 (only_conf conf_chan_a)) default_args))) = true
  /\ fst (run (_main (paris_2024 (only_conf conf_chan_a)) default_args)) = Ok tt.
Proof.
  assert (H : wrote_document
                (snd (run (_main (paris_2024 (only_conf conf_chan_a)) default_args))) = true)
    by (vm_compute; reflexivity).
  split; [exact H|].
  exact (proj1 (document_only_on_success _ _ H)).
Defined.
